(** * GlycoShield: the OneDrive upload pipeline of [onedrive_glycoshield.py]

    A shallow embedding of the script: the four pipeline stages
    ([get_access_token], [get_or_create_folder], [grant_folder_access],
    [upload_file]), the orchestrator [main] and the [__main__] guard, over an
    explicit world (local disk, trace of HTTP requests, the two output
    streams).  The remote service is an oracle that answers a request from
    the history of requests made so far. *)

From Stdlib Require Import ZArith String Ascii List Lia DecimalString DecimalZ
  DecimalPos.
From Stdlib Require Import Strings.Byte.
From stdpp Require Import base gmap strings list.

Local Open Scope string_scope.
Local Open Scope Z_scope.
Local Open Scope list_scope.
Local Open Scope stdpp_scope.

(** ** Python values *)

(** What [resp.json()] returns: the Python image of a JSON document.  Numbers
    are kept to integers, the script never computes with a number it
    received. *)
#[local] Unset Elimination Schemes.
Inductive json : Type :=
| JNull
| JBool (b : bool)
| JNum (z : Z)
| JStr (s : string)
| JArr (items : list json)
| JObj (fields : list (string * json)).
#[local] Set Elimination Schemes.

(** Exceptions raised by the interpreter or by [requests] on the script's
    behalf.  All of them derive from Python's [Exception]. *)
Inductive lib_exn : Type :=
| RequestException
| HTTPError (status : Z)
| JSONDecodeError
| KeyError (key : string)
| IndexError
| TypeError
| AttributeError
| OSError.

(** Exceptions the script can end with.  [SystemExit] derives from
    [BaseException], not from [Exception]. *)
Inductive exn : Type :=
| SystemExit (msg : string)
| FileNotFoundError (msg : string)
| Exception (msg : string)
| LibError (e : lib_exn).

(** [isinstance(e, Exception)]: what [except Exception] catches. *)
Definition is_Exception (e : exn) : bool :=
  match e with
  | SystemExit _ => false
  | FileNotFoundError _ | Exception _ | LibError _ => true
  end.

(** The result of running a piece of code: a value, an exception, or no
    result at all ([Diverge], the loop of [upload_file] out of fuel). *)
Inductive outcome (A : Type) : Type :=
| Ret (a : A)
| Raise (e : exn)
| Diverge.
Arguments Ret {A} a.
Arguments Raise {A} e.
Arguments Diverge {A}.

Definition nl : string := String (ascii_of_nat 10) "".

(** [str(n)] for an int. *)
Definition str_of_Z (z : Z) : string := NilZero.string_of_int (Z.to_int z).

(** [len(b)] as a Python int. *)
Definition len {A} (l : list A) : Z := Z.of_nat (length l).

(** [bool(v)]. *)
Definition truthy (v : json) : bool :=
  match v with
  | JNull => false
  | JBool b => b
  | JNum z => negb (z =? 0)
  | JStr s => negb (String.eqb s "")
  | JArr l => match l with [] => false | _ => true end
  | JObj kv => match kv with [] => false | _ => true end
  end.

(** Lookup in a dict kept as an association list. *)
Fixpoint dict_lookup {V} (k : string) (d : list (string * V)) : option V :=
  match d with
  | [] => None
  | (k', v) :: rest => if String.eqb k' k then Some v else dict_lookup k rest
  end.

(** [{**d, k: v}]: the value under [k] is replaced in place, a new key goes
    last. *)
Fixpoint dict_set {V} (k : string) (v : V) (d : list (string * V))
  : list (string * V) :=
  match d with
  | [] => [(k, v)]
  | (k', v') :: rest =>
      if String.eqb k' k then (k, v) :: rest else (k', v') :: dict_set k v rest
  end.

(** [v[k]] for a string key. *)
Definition py_getitem (v : json) (k : string) : outcome json :=
  match v with
  | JObj kv =>
      match dict_lookup k kv with
      | Some x => Ret x
      | None => Raise (LibError (KeyError k))
      end
  | _ => Raise (LibError TypeError)
  end.

(** [v.get(k, default)]: only a dict has the method. *)
Definition py_get (v : json) (k : string) (default : json) : outcome json :=
  match v with
  | JObj kv =>
      match dict_lookup k kv with
      | Some x => Ret x
      | None => Ret default
      end
  | _ => Raise (LibError AttributeError)
  end.

(** [v[0]]. *)
Definition py_first (v : json) : outcome json :=
  match v with
  | JArr (x :: _) => Ret x
  | JArr [] => Raise (LibError IndexError)
  | JStr (String c _) => Ret (JStr (String c ""))
  | JStr EmptyString => Raise (LibError IndexError)
  | JObj _ => Raise (LibError (KeyError "0"))
  | _ => Raise (LibError TypeError)
  end.

(** The items a [for] loop draws from [v]: the elements of a list, the keys
    of a dict, the characters of a string. *)
Definition py_iter (v : json) : outcome (list json) :=
  match v with
  | JArr l => Ret l
  | JObj kv => Ret (map (fun p => JStr (fst p)) kv)
  | JStr s => Ret (map (fun c => JStr (String c "")) (list_ascii_of_string s))
  | _ => Raise (LibError TypeError)
  end.

(** [k in v] for a value that got past [v["name"]], hence a dict. *)
Definition py_in (k : string) (v : json) : outcome bool :=
  match v with
  | JObj kv => Ret (match dict_lookup k kv with Some _ => true | None => false end)
  | _ => Raise (LibError TypeError)
  end.

(** [os.path.basename]: what follows the last slash. *)
Fixpoint basename_from (cur p : string) : string :=
  match p with
  | EmptyString => cur
  | String c rest =>
      if Ascii.eqb c "/" then basename_from "" rest
      else basename_from (cur +:+ String c "") rest
  end.
Definition basename (p : string) : string := basename_from "" p.

(** ** HTTP *)

Inductive method : Type := GET | POST | PUT.

(** [data=] of a dict, [json=], [data=] of bytes. *)
Inductive payload : Type :=
| NoBody
| Form (fields : list (string * option string))
| JsonBody (j : json)
| Raw (data : list byte).

Record request : Type := mkRequest {
  meth : method;
  url : string;
  headers : list (string * string);
  params : list (string * string);
  body : payload
}.

(** [json_body] is [None] when the body is not JSON ([resp.json()] raises). *)
Record response : Type := mkResponse {
  status_code : Z;
  text : string;
  json_body : option json
}.

(** A call of [requests] returns a response or raises. *)
Inductive http_result : Type :=
| Resp (r : response)
| NetErr.

(** [resp.ok]: [raise_for_status] would not raise. *)
Definition ok (r : response) : bool :=
  negb ((400 <=? status_code r) && (status_code r <? 600)).

(** ** What the script takes from its surroundings *)

(** The environment variables read at import, the remote service, and the
    library texts the script prints but does not choose: [str.lower],
    [str()] of a list or dict, [str()] of a library exception,
    [traceback.format_exc()].  [server h] answers the request at the head
    of [h]; the tail of [h] is what was sent before, latest first. *)
Class Runtime : Type := {
  CLIENT_ID : option string;
  CLIENT_SECRET : option string;
  TENANT_ID : option string;
  server : list request -> http_result;
  py_lower : string -> string;
  py_repr : json -> string;
  lib_str : lib_exn -> string;
  format_exc : exn -> string
}.

(** ** The world the script acts on *)

Record world : Type := mkWorld {
  disk : gmap string (list byte);
  sent : list request;
  stdout : list json;
  stderr : list string
}.

(** Sequencing of plain Python expressions that may raise. *)
Definition obind {A B} (o : outcome A) (k : A -> outcome B) : outcome B :=
  match o with
  | Ret a => k a
  | Raise e => Raise e
  | Diverge => Diverge
  end.

Notation "x <~ o ;; k" := (obind o (fun x => k))
  (at level 100, o at next level, right associativity).

(** A computation of the script. *)
Definition M (A : Type) : Type := world -> outcome A * world.

Definition ret {A} (a : A) : M A := fun w => (Ret a, w).
Definition raise {A} (e : exn) : M A := fun w => (Raise e, w).
Definition lift {A} (o : outcome A) : M A := fun w => (o, w).
Definition bind {A B} (m : M A) (k : A -> M B) : M B :=
  fun w =>
    match m w with
    | (Ret a, w') => k a w'
    | (Raise e, w') => (Raise e, w')
    | (Diverge, w') => (Diverge, w')
    end.

Notation "x <- m ;; k" := (bind m (fun x => k))
  (at level 100, m at next level, right associativity).
Notation "m ;;; k" := (bind m (fun _ => k))
  (at level 100, right associativity).

(** [print(s, file=sys.stderr)]. *)
Definition log (s : string) : M unit :=
  fun w => (Ret tt, mkWorld (disk w) (sent w) (stdout w) (stderr w ++ [s])).

(** [print(json.dumps(v, indent=2))]: one JSON document on standard output. *)
Definition print_json (v : json) : M unit :=
  fun w => (Ret tt, mkWorld (disk w) (sent w) (stdout w ++ [v]) (stderr w)).

Definition os_path_exists (p : string) : M bool :=
  fun w => (Ret (match disk w !! p with Some _ => true | None => false end), w).

(** [open(p, "w").write(s)]. *)
Definition write_text (p : string) (s : string) : M unit :=
  fun w => (Ret tt, mkWorld (<[p := list_byte_of_string s]> (disk w))
                            (sent w) (stdout w) (stderr w)).

(** The bytes behind [os.path.getsize(p)] and [open(p, "rb")]. *)
Definition read_file (p : string) : M (list byte) :=
  fun w =>
    match disk w !! p with
    | Some data => (Ret data, w)
    | None => (Raise (LibError OSError), w)
    end.

(** [f.read(n)]: up to [n] bytes from where the handle stands, and what
    stays behind it. *)
Fixpoint f_read (n : Z) (f : list byte) : list byte * list byte :=
  match f with
  | [] => ([], [])
  | b :: rest =>
      if 0 <? n then let '(chunk, f') := f_read (n - 1) rest in (b :: chunk, f')
      else ([], f)
  end.

(** ** The script *)

Section Script.
Context {RT : Runtime}.

(** [str(v)] inside an f-string. *)
Definition py_str (v : json) : string :=
  match v with
  | JNull => "None"
  | JBool true => "True"
  | JBool false => "False"
  | JNum z => str_of_Z z
  | JStr s => s
  | JArr _ | JObj _ => py_repr v
  end.

(** [str(e)] in the [__main__] guard. *)
Definition exn_str (e : exn) : string :=
  match e with
  | SystemExit msg | FileNotFoundError msg | Exception msg => msg
  | LibError le => lib_str le
  end.

(** [v.lower()]: only a string has the method. *)
Definition py_lower_of (v : json) : outcome string :=
  match v with
  | JStr s => Ret (py_lower s)
  | _ => Raise (LibError AttributeError)
  end.

(** [requests.get], [requests.post], [requests.put]: the request joins the
    trace and the service answers from the trace. *)
Definition http (r : request) : M response :=
  fun w =>
    let w' := mkWorld (disk w) (r :: sent w) (stdout w) (stderr w) in
    match server (r :: sent w) with
    | Resp resp => (Ret resp, w')
    | NetErr => (Raise (LibError RequestException), w')
    end.

(** [resp.raise_for_status()]. *)
Definition raise_for_status (r : response) : M unit :=
  if ok r then ret tt else raise (LibError (HTTPError (status_code r))).

(** [resp.json()]. *)
Definition resp_json (r : response) : M json :=
  match json_body r with
  | Some j => ret j
  | None => raise (LibError JSONDecodeError)
  end.

Definition BASE_FOLDER_NAME : string := "GlycoShield".
Definition DEFAULT_RECIPIENT_EMAILS : list string := ["simbiosyslab.neu@gmail.com"].

Definition opt_str (o : option string) : string :=
  match o with Some s => s | None => "None" end.

Definition TOKEN_URL : string :=
  "https://login.microsoftonline.com/" +:+ opt_str TENANT_ID +:+ "/oauth2/v2.0/token".
Definition GRAPH_BASE : string := "https://graph.microsoft.com/v1.0".

(** Step 1: obtain the access token. *)
Definition get_access_token : M json :=
  log "Fetching access token..." ;;;
  let data := [("client_id", CLIENT_ID);
               ("client_secret", CLIENT_SECRET);
               ("scope", Some "https://graph.microsoft.com/.default");
               ("grant_type", Some "client_credentials")] in
  resp <- http (mkRequest POST TOKEN_URL [] [] (Form data)) ;;
  if negb (ok resp) then
    raise (SystemExit ("Token request failed: " +:+ str_of_Z (status_code resp)
                       +:+ nl +:+ text resp))
  else
    j <- resp_json resp ;;
    token <- lift (py_getitem j "access_token") ;;
    ret token.

(** The [for item in items] scan of [get_or_create_folder]: the id of the
    first item whose lowered name is the lowered folder name and which has a
    [folder] key; [None] when the loop runs to its end. *)
Fixpoint scan_items (items : list json) (folder_name : string)
  : outcome (option json) :=
  match items with
  | [] => Ret None
  | item :: rest =>
      name <~ py_getitem item "name" ;;
      lname <~ py_lower_of name ;;
      if String.eqb lname (py_lower folder_name) then
        is_folder <~ py_in "folder" item ;;
        if is_folder : bool then
          i <~ py_getitem item "id" ;;
          Ret (Some i)
        else scan_items rest folder_name
      else scan_items rest folder_name
  end.

Definition children_url (parent_id : json) : string :=
  GRAPH_BASE +:+ "/sites/root/drive/items/" +:+ py_str parent_id +:+ "/children".

(** The listing request of [get_or_create_folder]. *)
Definition find_request (hdrs : list (string * string)) (parent_id : json)
    (folder_name : string) : request :=
  mkRequest GET (children_url parent_id) hdrs
    [("$filter", "name eq '" +:+ folder_name +:+ "'")] NoBody.

(** The creation request of [get_or_create_folder]. *)
Definition create_request (hdrs : list (string * string)) (parent_id : json)
    (folder_name : string) : request :=
  mkRequest POST (children_url parent_id)
    (dict_set "Content-Type" "application/json" hdrs) []
    (JsonBody (JObj [("name", JStr folder_name);
                     ("folder", JObj []);
                     ("@microsoft.graph.conflictBehavior", JStr "rename")])).

(** Step 2: find or create a folder. *)
Definition get_or_create_folder (hdrs : list (string * string))
    (parent_id : json) (folder_name : string) : M json :=
  log ("Checking for folder '" +:+ folder_name +:+ "' in parent '"
       +:+ py_str parent_id +:+ "'...") ;;;
  r_find <- http (find_request hdrs parent_id folder_name) ;;
  raise_for_status r_find ;;;
  j <- resp_json r_find ;;
  v <- lift (py_get j "value" (JArr [])) ;;
  items <- lift (py_iter v) ;;
  found <- lift (scan_items items folder_name) ;;
  match found with
  | Some i =>
      log ("Folder '" +:+ folder_name +:+ "' found. ID: " +:+ py_str i) ;;;
      ret i
  | None =>
      log ("Folder '" +:+ folder_name +:+ "' not found. Creating...") ;;;
      r_create <- http (create_request hdrs parent_id folder_name) ;;
      if negb (ok r_create) then
        raise (SystemExit ("Failed to create folder: "
                           +:+ str_of_Z (status_code r_create)
                           +:+ nl +:+ text r_create))
      else
        j' <- resp_json r_create ;;
        new_folder_id <- lift (py_getitem j' "id") ;;
        log ("Folder '" +:+ folder_name +:+ "' created. ID: "
             +:+ py_str new_folder_id) ;;;
        ret new_folder_id
  end.
(** Step 3: grant direct, scoped folder access. *)
Definition invite_request (hdrs : list (string * string)) (item_id : json)
    (email_list : list string) (sub_folder_name : string) : request :=
  mkRequest POST
    (GRAPH_BASE +:+ "/sites/root/drive/items/" +:+ py_str item_id +:+ "/invite")
    (dict_set "Content-Type" "application/json" hdrs) []
    (JsonBody (JObj [
       ("recipients", JArr (map (fun email => JObj [("email", JStr email)]) email_list));
       ("message", JStr ("You have been granted access to the '" +:+ sub_folder_name
                         +:+ "' data folder. This is an automated notification."));
       ("requireSignIn", JBool true);
       ("sendInvitation", JBool true);
       ("roles", JArr [JStr "read"])])).

Definition no_link_placeholder (item_id : json) : string :=
  "Access granted to item " +:+ py_str item_id +:+ " (no direct link returned)".

Definition grant_folder_access (hdrs : list (string * string)) (item_id : json)
    (email_list : list string) (sub_folder_name : string) : M json :=
  log ("Granting direct access for: " +:+ String.concat ", " email_list +:+ "...") ;;;
  r <- http (invite_request hdrs item_id email_list sub_folder_name) ;;
  if negb (ok r) then
    raise (Exception ("Failed to grant access: " +:+ str_of_Z (status_code r)
                      +:+ nl +:+ text r))
  else
    j <- resp_json r ;;
    permissions <- lift (py_get j "value" (JArr [])) ;;
    if negb (truthy permissions) then
      raise (Exception "Invite sent, but no permission data was returned.")
    else
      first <- lift (py_first permissions) ;;
      l <- lift (py_get first "link" (JObj [])) ;;
      link <- lift (py_get l "webUrl" JNull) ;;
      if negb (truthy link) then
        log "Warning: Invite sent, but no webUrl was found in the API response." ;;;
        ret (JStr (no_link_placeholder item_id))
      else ret link.

(** Step 4: create an upload session and upload a single file. *)

(** The three status codes a chunk write may come back with. *)
Definition chunk_accepted (status : Z) : bool :=
  (status =? 200) || (status =? 201) || (status =? 202).

Definition content_range (start end_ filesize : Z) : string :=
  "bytes " +:+ str_of_Z start +:+ "-" +:+ str_of_Z end_ +:+ "/" +:+ str_of_Z filesize.

(** The write of one window: [chunk] read at offset [start] of a file of
    [filesize] bytes. *)
Definition chunk_request (upload_url : json) (filesize start : Z)
    (chunk : list byte) : request :=
  let end_ := start + len chunk - 1 in
  mkRequest PUT (py_str upload_url)
    [("Content-Length", str_of_Z (len chunk));
     ("Content-Range", content_range start end_ filesize)]
    [] (Raw chunk).

(** The [while start < filesize] loop; [f] is what the open handle has not
    read yet.  One unit of [fuel] per iteration. *)
Fixpoint upload_loop (fuel : nat) (chunk_size : Z) (upload_url : json)
    (filesize : Z) (f : list byte) (start : Z) : M unit :=
  match fuel with
  | O => lift Diverge
  | S fuel' =>
      if start <? filesize then
        let '(chunk, f') := f_read chunk_size f in
        let end_ := start + len chunk - 1 in
        log ("  Uploading chunk: " +:+ content_range start end_ filesize) ;;;
        rr <- http (chunk_request upload_url filesize start chunk) ;;
        if negb (chunk_accepted (status_code rr)) then
          raise (Exception ("Chunk upload failed: " +:+ str_of_Z (status_code rr)
                            +:+ nl +:+ text rr))
        else
          upload_loop fuel' chunk_size upload_url filesize f' (end_ + 1)
      else ret tt
  end.

Definition session_request (hdrs : list (string * string)) (parent_id : json)
    (local_file_path : string) : request :=
  mkRequest POST
    (GRAPH_BASE +:+ "/sites/root/drive/items/" +:+ py_str parent_id +:+ ":/"
     +:+ basename local_file_path +:+ ":/createUploadSession")
    hdrs []
    (JsonBody (JObj [("item", JObj [("@microsoft.graph.conflictBehavior",
                                     JStr "replace")])])).

(** The loop is run with one unit of fuel per byte and one to spare: every
    iteration on a file that holds [filesize] bytes reads at least one. *)
Definition upload_file (hdrs : list (string * string)) (parent_id : json)
    (local_file_path : string) : M unit :=
  present <- os_path_exists local_file_path ;;
  if negb present then
    raise (FileNotFoundError ("The specified file does not exist: "
                              +:+ local_file_path))
  else
    log ("Creating upload session for " +:+ local_file_path +:+ "...") ;;;
    r <- http (session_request hdrs parent_id local_file_path) ;;
    raise_for_status r ;;;
    j <- resp_json r ;;
    upload_url <- lift (py_getitem j "uploadUrl") ;;
    data <- read_file local_file_path ;;
    let filesize := len data in
    let chunk_size := 5 * 1024 * 1024 in
    upload_loop (S (length data)) chunk_size upload_url filesize data 0 ;;;
    log ("File '" +:+ local_file_path +:+ "' uploaded successfully.").

(** ** Main execution logic *)

(** The namespace [parser.parse_args()] returns.  The parser itself (lines
    187-216 of [main]) is [argparse]'s and is not part of this model: a
    command line that asks for help, or that does not parse, ends the process
    inside [parse_args] (the usage text goes to standard output with exit
    code 0, or to standard error with exit code 2) before any line modelled
    below runs.  What follows is about runs whose command line parsed. *)
Record arguments : Type := mkArgs {
  subfolder : string;
  files_to_upload : list string;
  new_emails : list string
}.

(** The namespace of an invocation without flags. *)
Definition default_args : arguments := mkArgs "public" ["test_upload.txt"] [].

(** The [for file_path in files_to_upload] loop of [main]. *)
Fixpoint upload_each (hdrs : list (string * string)) (subfolder_id : json)
    (total : nat) (files : list string) (successfully_uploaded_files : list string)
  : M (list string) :=
  match files with
  | [] => ret successfully_uploaded_files
  | file_path :: rest =>
      log (nl +:+ "--- Uploading file "
           +:+ str_of_Z (len successfully_uploaded_files + 1) +:+ " of "
           +:+ str_of_Z (Z.of_nat total) +:+ ": " +:+ file_path +:+ " ---") ;;;
      upload_file hdrs subfolder_id file_path ;;;
      upload_each hdrs subfolder_id total rest
        (successfully_uploaded_files ++ [file_path])
  end.

Definition string_list_eqb (a b : list string) : bool :=
  bool_decide (a = b).

(** Lines 219-239 of [main]: the token and the two folders. *)
Definition resolve_folders (args : arguments)
  : M (list (string * string) * json) :=
  let sub_folder_name := subfolder args in
  let recipient_emails := DEFAULT_RECIPIENT_EMAILS ++ new_emails args in
  log ("Target subfolder: '" +:+ sub_folder_name +:+ "'") ;;;
  log ("Files to upload: " +:+ String.concat ", " (files_to_upload args)) ;;;
  log ("Recipient emails: " +:+ String.concat ", " recipient_emails) ;;;
  log "------------------------------" ;;;
  token <- get_access_token ;;
  let hdrs := [("Authorization", "Bearer " +:+ py_str token)] in
  glycoshield_id <- get_or_create_folder hdrs (JStr "root") BASE_FOLDER_NAME ;;
  subfolder_id <- get_or_create_folder hdrs glycoshield_id sub_folder_name ;;
  log ("Using subfolder '" +:+ sub_folder_name +:+ "' (ID: "
       +:+ py_str subfolder_id +:+ ")") ;;;
  ret (hdrs, subfolder_id).

(** Lines 244-247 of [main]: the dummy file of the default case. *)
Definition default_file_step (args : arguments) : M unit :=
  present <- os_path_exists "test_upload.txt" ;;
  if string_list_eqb (files_to_upload args) ["test_upload.txt"] && negb present then
    log (nl +:+ "Default file 'test_upload.txt' not found. Creating dummy file for upload...") ;;;
    write_text "test_upload.txt" "This is a test upload file."
  else ret tt.

Definition success_record (sub_folder_name : string) (subfolder_id : json)
    (uploaded recipient_emails : list string) (share_link : json) : json :=
  JObj [("status", JStr "success");
        ("base_folder", JStr BASE_FOLDER_NAME);
        ("sub_folder", JStr sub_folder_name);
        ("sub_folder_id", subfolder_id);
        ("files_uploaded", JArr (map JStr uploaded));
        ("shared_with", JArr (map JStr recipient_emails));
        ("invite_link", share_link)].

(** [main] from line 218 on, given the namespace [args] that [parse_args]
    returned. *)
Definition main (args : arguments) : M json :=
  let sub_folder_name := subfolder args in
  let recipient_emails := DEFAULT_RECIPIENT_EMAILS ++ new_emails args in
  resolved <- resolve_folders args ;;
  let '(hdrs, subfolder_id) := resolved in
  default_file_step args ;;;
  successfully_uploaded_files <-
    upload_each hdrs subfolder_id (length (files_to_upload args))
      (files_to_upload args) [] ;;
  share_link <- grant_folder_access hdrs subfolder_id recipient_emails sub_folder_name ;;
  log ("Direct access granted. Invite link: " +:+ py_str share_link) ;;;
  ret (success_record sub_folder_name subfolder_id successfully_uploaded_files
         recipient_emails share_link).

Definition failure_record (error : string) : json :=
  JObj [("status", JStr "failure"); ("error", JStr error)].

(** The [__main__] guard around a [main] whose command line parsed: the exit
    code of the process, [None] when it does not end.  An exception that [except Exception] lets through ends the
    interpreter: its message goes to standard error and the exit code is 1. *)
Definition script (args : arguments) (w : world) : option Z * world :=
  match main args w with
  | (Ret success_data, w1) =>
      let '(_, w2) := print_json success_data w1 in
      (Some 0, w2)
  | (Raise e, w1) =>
      if is_Exception e then
        let '(_, w2) :=
          (log "--- SCRIPT FAILED ---" ;;;
           log (format_exc e) ;;;
           log "-----------------------" ;;;
           print_json (failure_record (exn_str e))) w1 in
        (Some 1, w2)
      else
        let '(_, w2) := log (exn_str e) w1 in
        (Some 1, w2)
  | (Diverge, w1) => (None, w1)
  end.

End Script.

(** ** A small service to run the script against *)

Definition ascii_lower (c : ascii) : ascii :=
  let n := nat_of_ascii c in
  if ((65 <=? n) && (n <=? 90))%nat then ascii_of_nat (n + 32) else c.

Fixpoint ascii_lower_string (s : string) : string :=
  match s with
  | EmptyString => EmptyString
  | String c rest => String (ascii_lower c) (ascii_lower_string rest)
  end.

(** The folders created so far under the listing [u] that the filter [flt]
    selects, latest first. *)
Fixpoint created_folders (u flt : string) (past : list request) : list json :=
  match past with
  | [] => []
  | r :: older =>
      match meth r, body r with
      | POST, JsonBody (JObj kv) =>
          match dict_lookup "name" kv with
          | Some (JStr n) =>
              if String.eqb (url r) u && String.eqb ("name eq '" +:+ n +:+ "'") flt
              then JObj [("id", JStr ("id-" +:+ n)); ("name", JStr n); ("folder", JObj [])]
                   :: created_folders u flt older
              else created_folders u flt older
          | _ => created_folders u flt older
          end
      | _, _ => created_folders u flt older
      end
  end.

(** A drive that starts empty: the token request comes back with
    [token_status], a chunk write with [chunk_status], the invitation with
    the permission records [invite_value]. *)
Definition toy_server (token_status chunk_status : Z) (invite_value : json)
    (h : list request) : http_result :=
  match h with
  | [] => NetErr
  | r :: past =>
      match meth r, body r with
      | GET, _ =>
          Resp (mkResponse 200 "" (Some (JObj [("value",
            JArr (created_folders (url r)
                    (default "" (dict_lookup "$filter" (params r))) past))])))
      | PUT, _ => Resp (mkResponse chunk_status "chunk" None)
      | POST, Form _ =>
          Resp (mkResponse token_status "token"
                  (Some (JObj [("access_token", JStr "tok")])))
      | POST, JsonBody (JObj kv) =>
          match dict_lookup "name" kv, dict_lookup "item" kv with
          | Some (JStr n), _ =>
              Resp (mkResponse 201 ""
                      (Some (JObj [("id", JStr ("id-" +:+ n)); ("name", JStr n);
                                   ("folder", JObj [])])))
          | _, Some _ =>
              Resp (mkResponse 200 ""
                      (Some (JObj [("uploadUrl", JStr "https://upload.example/s")])))
          | _, None =>
              Resp (mkResponse 200 "" (Some (JObj [("value", invite_value)])))
          end
      | _, _ => NetErr
      end
  end.

Definition toy (token_status chunk_status : Z) (invite_value : json) : Runtime := {|
  CLIENT_ID := Some "client";
  CLIENT_SECRET := Some "secret";
  TENANT_ID := Some "tenant";
  server := toy_server token_status chunk_status invite_value;
  py_lower := ascii_lower_string;
  py_repr := fun _ => "<container>";
  lib_str := fun _ => "<library error>";
  format_exc := fun _ => "<traceback>"
|}.

Definition one_link : json :=
  JArr [JObj [("link", JObj [("webUrl", JStr "https://share.example/x")])]].

(** The service when everything goes well. *)
Definition toy_ok : Runtime := toy 200 202 one_link.

Definition empty_world : world := mkWorld ∅ [] [] [].

(** The service that turns the token request down. *)
Definition toy_no_token : Runtime := toy 401 202 one_link.

(** The service that turns every chunk write down. *)
Definition toy_no_chunk : Runtime := toy 200 500 one_link.

(** The service whose invitation comes back without a permission record. *)
Definition toy_no_permission : Runtime := toy 200 202 (JArr []).

(** The service whose invitation comes back with a record without a link. *)
Definition toy_no_link : Runtime := toy 200 202 (JArr [JObj []]).

(** The header [main] builds from the token of the small service. *)
Definition toy_headers : list (string * string) := [("Authorization", "Bearer tok")].

(** A three-byte file. *)
Definition sample_bytes : list byte := [x01; x02; x03].

(** An invocation on a file that is not on disk. *)
Definition missing_args : arguments := mkArgs "x" ["nope.zip"] ["a@b"].

(** The world in which [main] starts its uploads, from the empty world. *)
Definition setup_world (RT : Runtime) (args : arguments) : world :=
  snd (default_file_step args (snd (resolve_folders args empty_world))).

(** The world in which [main] sends its invitation, from the empty world. *)
Definition uploaded_world (RT : Runtime) (args : arguments) : world :=
  snd (upload_each toy_headers (JStr ("id-" +:+ subfolder args))
         (length (files_to_upload args)) (files_to_upload args) []
         (setup_world RT args)).

(** The small runtime over another service. *)
Definition toy_over (srv : list request -> http_result) : Runtime := {|
  CLIENT_ID := Some "client";
  CLIENT_SECRET := Some "secret";
  TENANT_ID := Some "tenant";
  server := srv;
  py_lower := ascii_lower_string;
  py_repr := fun _ => "<container>";
  lib_str := fun _ => "<library error>";
  format_exc := fun _ => "<traceback>"
|}.

(** A service that cannot be reached. *)
Definition toy_offline : Runtime := toy_over (fun _ => NetErr).

(** A service that answers every request with 503. *)
Definition toy_busy : Runtime :=
  toy_over (fun _ => Resp (mkResponse 503 "busy" None)).

(** A service that answers every request with a success and an empty
    object. *)
Definition toy_hollow : Runtime :=
  toy_over (fun _ => Resp (mkResponse 200 "" (Some (JObj [])))).

(** An invitation: a request whose JSON body has [recipients]. *)
Definition is_invite (r : request) : bool :=
  match body r with
  | JsonBody (JObj kv) =>
      match dict_lookup "recipients" kv with Some _ => true | None => false end
  | _ => false
  end.

(** The service that goes well until it turns the invitation down. *)
Definition toy_no_invite : Runtime :=
  toy_over (fun h =>
    match h with
    | r :: _ =>
        if is_invite r then Resp (mkResponse 403 "forbidden" None)
        else toy_server 200 202 one_link h
    | [] => NetErr
    end).

(** The service whose invitation comes back with an empty web URL. *)
Definition toy_empty_url : Runtime :=
  toy 200 202 (JArr [JObj [("link", JObj [("webUrl", JStr "")])]]).

(** The service whose invitation comes back with a null link. *)
Definition toy_null_link : Runtime :=
  toy 200 202 (JArr [JObj [("link", JNull)]]).





(** ** Vocabulary of the statements *)

(** [ceil(a / b)] for a positive [b]. *)
Definition ceil_div (a b : Z) : Z := (a + b - 1) / b.

(** The window size of [upload_file]: 5 MiB. *)
Definition CHUNK_SIZE : Z := 5 * 1024 * 1024.

(** A window: its offset in the file and its bytes. *)
Definition window : Type := Z * list byte.

(** The last byte offset of a window, the [end] of the loop. *)
Definition window_end (x : window) : Z := fst x + len (snd x) - 1.

(** Every window starts where the one before it stopped, the first one at
    [start]. *)
Fixpoint tiled (start : Z) (ws : list window) : Prop :=
  match ws with
  | [] => True
  | x :: rest => fst x = start /\ tiled (window_end x + 1) rest
  end.

(** No window is empty or longer than [cs], and only the last one may be
    shorter than [cs]. *)
Fixpoint full_but_last (cs : Z) (ws : list window) : Prop :=
  match ws with
  | [] => True
  | x :: rest =>
      0 < len (snd x) <= cs /\ (rest <> [] -> len (snd x) = cs)
      /\ full_but_last cs rest
  end.

(** The bytes of the windows, in the order sent. *)
Definition window_bytes (ws : list window) : list byte := concat (map snd ws).

(** The sum of the lengths of the windows. *)
Definition total_length (ws : list window) : Z :=
  fold_right Z.add 0 (map (fun x => len (snd x)) ws).

(** The chunk writes of a trace: its [PUT] requests. *)
Definition chunk_writes (tr : list request) : list request :=
  List.filter (fun rq => match meth rq with PUT => true | _ => false end) tr.

(** A world whose disk holds one file and where nothing has happened yet. *)
Definition world_with (path : string) (data : list byte) : world :=
  mkWorld {[ path := data ]} [] [] [].

Section Vocabulary.
Context {RT : Runtime}.

Definition window_request (upload_url : json) (filesize : Z) (x : window) : request :=
  chunk_request upload_url filesize (fst x) (snd x).

(** The trace [tr'] is the trace [tr] followed by the writes of the windows
    [ws], first window first. *)
Definition wrote (upload_url : json) (filesize : Z) (ws : list window)
    (tr tr' : list request) : Prop :=
  tr' = rev (map (window_request upload_url filesize) ws) ++ tr.

(** The world after the log line and the write of one window. *)
Definition after_chunk (upload_url : json) (filesize start : Z)
    (chunk : list byte) (w : world) : world :=
  mkWorld (disk w)
    (chunk_request upload_url filesize start chunk :: sent w)
    (stdout w)
    (stderr w ++ ["  Uploading chunk: "
                  +:+ content_range start (start + len chunk - 1) filesize]).

(** The world once [s] is printed on standard error. *)
Definition logged (w : world) (s : string) : world :=
  mkWorld (disk w) (sent w) (stdout w) (stderr w ++ [s]).

(** The world in which [upload_file] starts its loop: the session is open. *)
Definition session_world (hdrs : list (string * string)) (parent_id : json)
    (path : string) (w : world) : world :=
  mkWorld (disk w) (session_request hdrs parent_id path :: sent w) (stdout w)
    (stderr w ++ ["Creating upload session for " +:+ path +:+ "..."]).

(** The line [main] prints before the upload of [file_path]. *)
Definition progress_line (uploaded : list string) (total : nat)
    (file_path : string) : string :=
  nl +:+ "--- Uploading file " +:+ str_of_Z (len uploaded + 1) +:+ " of "
  +:+ str_of_Z (Z.of_nat total) +:+ ": " +:+ file_path +:+ " ---".

(** The world once [grant_folder_access] has sent its invitation. *)
Definition invited (hdrs : list (string * string)) (item_id : json)
    (email_list : list string) (sub_folder_name : string) (w : world) : world :=
  mkWorld (disk w)
    (invite_request hdrs item_id email_list sub_folder_name :: sent w) (stdout w)
    (stderr w ++ ["Granting direct access for: "
                  +:+ String.concat ", " email_list +:+ "..."]).

(** The invitation sent from [w] comes back as a success whose permission
    records are [permissions] ([[]] when the body has no [value]). *)
Definition invite_answer (hdrs : list (string * string)) (item_id : json)
    (email_list : list string) (sub_folder_name : string) (w : world)
    (permissions : json) : Prop :=
  exists rs j,
    server (invite_request hdrs item_id email_list sub_folder_name :: sent w) = Resp rs
    /\ ok rs = true /\ json_body rs = Some j
    /\ py_get j "value" (JArr []) = Ret permissions.

(** The recipients of a run. *)
Definition recipients (args : arguments) : list string :=
  DEFAULT_RECIPIENT_EMAILS ++ new_emails args.

Definition no_permission_message : string :=
  "Invite sent, but no permission data was returned.".

(** An exception that comes from the exchange with the service, not from
    the local disk and not an exit. *)
Definition remote_failure (e : exn) : Prop :=
  match e with
  | Exception _ | LibError _ => True
  | SystemExit _ | FileNotFoundError _ => False
  end.

(** The bytes of the dummy file [main] writes in the default case. *)
Definition dummy_bytes : list byte :=
  list_byte_of_string "This is a test upload file.".

(** Folder resolution in the words of its description: an item matches when
    its name is the wanted name up to case and it is a folder. *)
Definition is_folder_match (folder_name : string) (item : json) : bool :=
  match item with
  | JObj kv =>
      match dict_lookup "name" kv, dict_lookup "folder" kv with
      | Some (JStr n), Some _ => String.eqb (py_lower n) (py_lower folder_name)
      | _, _ => false
      end
  | _ => false
  end.

(** The identifier of the first match of a listing, if there is one. *)
Definition first_folder_match (items : list json) (folder_name : string)
  : option json :=
  match List.find (is_folder_match folder_name) items with
  | Some (JObj kv) => dict_lookup "id" kv
  | _ => None
  end.

(** An item as the service lists it: an object with a string [name] and an
    [id]. *)
Definition drive_item (item : json) : Prop :=
  exists kv n i,
    item = JObj kv /\ dict_lookup "name" kv = Some (JStr n)
    /\ dict_lookup "id" kv = Some i.

(** After the requests [h], the listing of [parent_id] filtered on
    [folder_name] comes back as a success that shows [items]. *)
Definition listing (hdrs : list (string * string)) (parent_id : json)
    (folder_name : string) (h : list request) (items : list json) : Prop :=
  exists rs j,
    server (find_request hdrs parent_id folder_name :: h) = Resp rs
    /\ ok rs = true /\ json_body rs = Some j
    /\ py_get j "value" (JArr []) = Ret (JArr items)
    /\ Forall drive_item items.


(** The request of [get_access_token]. *)
Definition token_request : request :=
  mkRequest POST TOKEN_URL [] []
    (Form [("client_id", CLIENT_ID);
           ("client_secret", CLIENT_SECRET);
           ("scope", Some "https://graph.microsoft.com/.default");
           ("grant_type", Some "client_credentials")]).

(** The computation [m] always ends, with a value or an exception. *)
Definition total {A} (m : M A) : Prop :=
  forall w, fst (m w) <> Diverge.

(** The computation [m] leaves the component [proj] of the world alone. *)
Definition keeps {A X} (proj : world -> X) (m : M A) : Prop :=
  forall w r w', m w = (r, w') -> proj w' = proj w.

(** The run of [main] on [args] from [w] has the token and the subfolder
    [subfolder_id], and stands at [w2] before its first upload. *)
Definition reaches_uploads (args : arguments) (w : world)
    (hdrs : list (string * string)) (subfolder_id : json) (w2 : world) : Prop :=
  exists w1, resolve_folders args w = (Ret (hdrs, subfolder_id), w1)
             /\ default_file_step args w1 = (Ret tt, w2).

(** The world after the [__main__] guard has reported the exception [e]
    that [main] raised in [w1]. *)
Definition after_failure (e : exn) (w1 : world) : world :=
  mkWorld (disk w1) (sent w1)
    (stdout w1 ++ [failure_record (exn_str e)])
    (((stderr w1 ++ ["--- SCRIPT FAILED ---"]) ++ [format_exc e])
     ++ ["-----------------------"]).

(** The computation [m] only adds requests to the trace. *)
Definition grows {A} (m : M A) : Prop :=
  forall w r w', m w = (r, w') -> exists new, sent w' = new ++ sent w.

(** The trace [tr'] is [tr] followed, for each file of [files] in turn, by
    the opening of its upload session and the writes of windows that are the
    whole of its bytes on the disk [d]. *)
Fixpoint uploads (hdrs : list (string * string)) (subfolder_id : json)
    (d : gmap string (list byte)) (files : list string)
    (tr tr' : list request) : Prop :=
  match files with
  | [] => tr' = tr
  | path :: rest =>
      exists data upload_url ws tr1,
        d !! path = Some data
        /\ wrote upload_url (len data) ws
             (session_request hdrs subfolder_id path :: tr) tr1
        /\ tiled 0 ws /\ full_but_last CHUNK_SIZE ws
        /\ window_bytes ws = data
        /\ uploads hdrs subfolder_id d rest tr1 tr'
  end.

(** The world in which [main] calls [get_access_token]: four lines are on
    standard error. *)
Definition announced (args : arguments) (w : world) : world :=
  mkWorld (disk w) (sent w) (stdout w)
    ((((stderr w ++ ["Target subfolder: '" +:+ subfolder args +:+ "'"])
       ++ ["Files to upload: " +:+ String.concat ", " (files_to_upload args)])
      ++ ["Recipient emails: " +:+ String.concat ", " (recipients args)])
     ++ ["------------------------------"]).

(** The world in which the answer to the token request comes in. *)
Definition after_token (args : arguments) (w : world) : world :=
  mkWorld (disk w) (token_request :: sent w) (stdout w)
    (stderr (announced args w) ++ ["Fetching access token..."]).

(** What [main] does with the answer [answer] to its token request. *)
Definition main_from_token (args : arguments) (answer : http_result) : M json :=
  resolved <-
    match answer with
    | Resp rs =>
        if negb (ok rs) then
          raise (SystemExit ("Token request failed: "
                             +:+ str_of_Z (status_code rs) +:+ nl +:+ text rs))
        else
          j <- resp_json rs ;;
          token <- lift (py_getitem j "access_token") ;;
          let hdrs := [("Authorization", "Bearer " +:+ py_str token)] in
          glycoshield_id <- get_or_create_folder hdrs (JStr "root") BASE_FOLDER_NAME ;;
          subfolder_id <- get_or_create_folder hdrs glycoshield_id (subfolder args) ;;
          log ("Using subfolder '" +:+ subfolder args +:+ "' (ID: "
               +:+ py_str subfolder_id +:+ ")") ;;;
          ret (hdrs, subfolder_id)
    | NetErr => raise (LibError RequestException)
    end ;;
  let '(hdrs, subfolder_id) := resolved in
  default_file_step args ;;;
  successfully_uploaded_files <-
    upload_each hdrs subfolder_id (length (files_to_upload args))
      (files_to_upload args) [] ;;
  share_link <- grant_folder_access hdrs subfolder_id (recipients args)
                  (subfolder args) ;;
  log ("Direct access granted. Invite link: " +:+ py_str share_link) ;;;
  ret (success_record (subfolder args) subfolder_id successfully_uploaded_files
         (recipients args) share_link).

(** The service takes every chunk write. *)
Definition accepts_chunks : Prop :=
  forall h rq, meth rq = PUT ->
    exists resp, server (rq :: h) = Resp resp /\ chunk_accepted (status_code resp) = true.

End Vocabulary.

(** * Properties *)

Section Properties.
Context {RT : Runtime}.

(** ** Effects *)

Lemma bind_ret {A B} (m : M A) (k : A -> M B) w a w' :
  m w = (Ret a, w') -> bind m k w = k a w'.
Proof. intros H; unfold bind; rewrite H; reflexivity. Qed.

Lemma bind_raise {A B} (m : M A) (k : A -> M B) w e w' :
  m w = (Raise e, w') -> bind m k w = (Raise e, w').
Proof. intros H; unfold bind; rewrite H; reflexivity. Qed.

Lemma bind_assoc {A B C} (m : M A) (k : A -> M B) (k' : B -> M C) w :
  bind (bind m k) k' w = bind m (fun a => bind (k a) k') w.
Proof. unfold bind. destruct (m w) as [[a|e|] w1]; reflexivity. Qed.

Lemma bind_ext {A B} (m : M A) (k k' : A -> M B) :
  (forall a w, k a w = k' a w) -> forall w, bind m k w = bind m k' w.
Proof. intros H w. unfold bind. destruct (m w) as [[a|e|] w1]; auto. Qed.

(** ** Reading the file *)

Lemma f_read_take_drop n f :
  f_read n f = (take (Z.to_nat n) f, drop (Z.to_nat n) f).
Proof.
  revert n; induction f as [|b f IH]; intros n; cbn [f_read].
  - now rewrite take_nil, drop_nil.
  - destruct (Z.ltb_spec 0 n) as [Hn|Hn].
    + rewrite IH. replace (Z.to_nat n) with (S (Z.to_nat (n - 1))) by lia.
      reflexivity.
    + replace (Z.to_nat n) with O by lia. reflexivity.
Qed.

Lemma f_read_spec cs f chunk f' :
  0 < cs -> f_read cs f = (chunk, f') ->
  f = chunk ++ f' /\ len chunk <= cs /\ len f = len chunk + len f'
  /\ (f <> [] -> 0 < len chunk) /\ (len chunk < cs -> f' = []).
Proof.
  intros Hcs E. rewrite f_read_take_drop in E. injection E as <- <-.
  unfold len. rewrite length_take, length_drop.
  repeat split.
  - now rewrite take_drop.
  - lia.
  - lia.
  - intros Hf. destruct f; [congruence|]. cbn [length]. lia.
  - intros Hlt. apply nil_length_inv. rewrite length_drop. lia.
Qed.

(** ** The chunk loop *)

(** One iteration of the loop, by the answer to its write. *)
Lemma upload_loop_step fuel cs upload_url filesize f start w :
  start < filesize ->
  upload_loop (S fuel) cs upload_url filesize f start w =
    let chunk := fst (f_read cs f) in
    let w1 := after_chunk upload_url filesize start chunk w in
    match server (chunk_request upload_url filesize start chunk :: sent w) with
    | Resp rr =>
        if chunk_accepted (status_code rr) then
          upload_loop fuel cs upload_url filesize (snd (f_read cs f))
            (start + len chunk) w1
        else
          (Raise (Exception ("Chunk upload failed: " +:+ str_of_Z (status_code rr)
                             +:+ nl +:+ text rr)), w1)
    | NetErr => (Raise (LibError RequestException), w1)
    end.
Proof.
  intros Hlt. cbn [upload_loop].
  apply Z.ltb_lt in Hlt. rewrite Hlt.
  destruct (f_read cs f) as [chunk f'] eqn:E. cbn [fst snd].
  unfold bind, log, http, after_chunk. cbn [sent disk stdout stderr].
  destruct (server _) as [rr|]; [|reflexivity].
  destruct (chunk_accepted (status_code rr)); cbn [negb]; [|reflexivity].
  replace (start + len chunk - 1 + 1) with (start + len chunk) by lia.
  reflexivity.
Qed.

Lemma upload_loop_done fuel cs upload_url filesize f start w :
  filesize <= start ->
  upload_loop (S fuel) cs upload_url filesize f start w = (Ret tt, w).
Proof.
  intros Hle. cbn [upload_loop].
  apply Z.ltb_ge in Hle. now rewrite Hle.
Qed.

Lemma ceil_div_0 cs : 0 < cs -> ceil_div 0 cs = 0.
Proof. intros H. unfold ceil_div. apply Z.div_small. lia. Qed.

Lemma ceil_div_pos a cs : 0 < cs -> 0 < a -> 1 <= ceil_div a cs.
Proof.
  intros Hcs Ha. unfold ceil_div.
  replace (a + cs - 1) with ((a - 1) + 1 * cs) by lia.
  rewrite Z.div_add by lia.
  pose proof (Z.div_pos (a - 1) cs). lia.
Qed.

Lemma ceil_div_full a cs : 0 < cs -> ceil_div (cs + a) cs = 1 + ceil_div a cs.
Proof.
  intros Hcs. unfold ceil_div.
  replace (cs + a + cs - 1) with ((a + cs - 1) + 1 * cs) by lia.
  rewrite Z.div_add by lia. lia.
Qed.

Lemma ceil_div_small a cs : 0 < a <= cs -> ceil_div a cs = 1.
Proof.
  intros H. unfold ceil_div.
  replace (a + cs - 1) with ((a - 1) + 1 * cs) by lia.
  rewrite Z.div_add by lia. rewrite Z.div_small; lia.
Qed.

Lemma ceil_div_mono a b cs : 0 < cs -> a <= b -> ceil_div a cs <= ceil_div b cs.
Proof. intros Hcs Hab. unfold ceil_div. apply Z.div_le_mono; lia. Qed.

Lemma ceil_div_nonneg a cs : 0 < cs -> 0 <= a -> 0 <= ceil_div a cs.
Proof. intros Hcs Ha. unfold ceil_div. apply Z.div_pos; lia. Qed.

Lemma ceil_div_le a : 0 <= a -> ceil_div a CHUNK_SIZE <= a.
Proof.
  intros Ha. unfold ceil_div, CHUNK_SIZE.
  destruct (Z.eq_dec a 0) as [->|Hne]; [reflexivity|].
  apply Z.lt_succ_r. apply Z.div_lt_upper_bound; lia.
Qed.

(** ** Windows *)

Lemma len_app {A} (l1 l2 : list A) : len (l1 ++ l2) = len l1 + len l2.
Proof. unfold len. rewrite length_app. lia. Qed.

Lemma len_nonneg {A} (l : list A) : 0 <= len l.
Proof. unfold len. lia. Qed.

Lemma len_0_nil {A} (l : list A) : len l = 0 -> l = [].
Proof. unfold len. intros H. apply nil_length_inv. lia. Qed.

Lemma full_but_last_nonempty cs ws :
  full_but_last cs ws -> window_bytes ws = [] -> ws = [].
Proof.
  destruct ws as [|x rest]; [reflexivity|].
  cbn [full_but_last]. intros [Hx _] Hb.
  unfold window_bytes in Hb. cbn [map concat] in Hb.
  apply app_eq_nil in Hb as [Hb _]. rewrite Hb in Hx.
  unfold len in Hx. cbn [length] in Hx. lia.
Qed.

(** Windows that are full but for the last are as many as the ceiling of
    their bytes over the window size. *)
Lemma full_but_last_count cs ws :
  0 < cs -> full_but_last cs ws ->
  Z.of_nat (length ws) = ceil_div (len (window_bytes ws)) cs.
Proof.
  intros Hcs. induction ws as [|x rest IH]; intros Hf.
  - cbn. now rewrite ceil_div_0.
  - destruct Hf as (Hx & Hfull & Hrest).
    unfold window_bytes in *. cbn [map concat length]. rewrite len_app.
    destruct rest as [|y rest'].
    + cbn [map concat]. change (len []) with 0.
      rewrite Z.add_0_r, ceil_div_small by lia. reflexivity.
    + rewrite Hfull by discriminate.
      rewrite ceil_div_full by lia. rewrite <- IH by assumption.
      cbn [length]. lia.
Qed.

(** The offsets of tiled windows: each window starts right after the end of
    the one before, so the ranges grow strictly and never overlap. *)
Lemma tiled_offsets start ws :
  tiled start ws ->
  forall i x y, ws !! i = Some x -> ws !! S i = Some y ->
    fst y = window_end x + 1.
Proof.
  revert start. induction ws as [|a rest IH]; intros start Ht i x y Hx Hy.
  - discriminate.
  - destruct Ht as [_ Ht]. destruct i as [|i].
    + cbn in Hx. injection Hx as <-. destruct rest as [|b rest']; [discriminate|].
      cbn in Hy. injection Hy as <-. now destruct Ht.
    + cbn in Hx, Hy. eapply IH; eassumption.
Qed.

(** The bytes before a window are as many as its offset. *)
Lemma tiled_sum start ws :
  tiled start ws ->
  forall i x, ws !! i = Some x -> fst x = start + len (window_bytes (take i ws)).
Proof.
  revert start. induction ws as [|a rest IH]; intros start Ht i x Hx.
  - discriminate.
  - destruct Ht as [Ha Ht]. destruct i as [|i].
    + cbn in Hx. injection Hx as <-. cbn. change (len []) with 0. lia.
    + cbn in Hx. rewrite (IH _ Ht i x Hx).
      unfold window_bytes, window_end. cbn [take map concat]. rewrite len_app. lia.
Qed.

(** What the loop does on a file that holds exactly the bytes its size
    announces: it ends, whatever the service answers, having written windows
    that tile a prefix of the file, the whole file when it returns. *)
Lemma upload_loop_windows fuel :
  forall cs upload_url filesize f start w,
    0 < cs -> filesize = start + len f ->
    (Z.to_nat (ceil_div (len f) cs) < fuel)%nat ->
    exists ws r w',
      upload_loop fuel cs upload_url filesize f start w = (r, w')
      /\ r <> Diverge
      /\ wrote upload_url filesize ws (sent w) (sent w')
      /\ disk w' = disk w /\ stdout w' = stdout w
      /\ tiled start ws /\ full_but_last cs ws
      /\ (exists rest, f = window_bytes ws ++ rest /\ (r = Ret tt -> rest = []))
      /\ (forall e, r = Raise e -> remote_failure e)
      /\ (accepts_chunks -> r = Ret tt).
Proof.
  induction fuel as [|fuel IH]; intros cs upload_url filesize f start w Hcs Hsize Hfuel;
    [lia|].
  destruct (Z.lt_ge_cases start filesize) as [Hlt|Hge].
  - rewrite upload_loop_step by assumption.
    destruct (f_read cs f) as [chunk f'] eqn:E. cbn [fst snd]. cbv zeta.
    destruct (f_read_spec cs f chunk f' Hcs E) as (Hf & Hle & Hlen & Hpos & Hshort).
    assert (Hne : f <> []) by (intros ->; unfold len in Hsize; cbn in Hsize; lia).
    specialize (Hpos Hne).
    set (rq := chunk_request upload_url filesize start chunk).
    set (w1 := after_chunk upload_url filesize start chunk w).
    assert (Hone : wrote upload_url filesize [(start, chunk)] (sent w) (sent w1))
      by reflexivity.
    assert (Hfail : forall e, remote_failure e ->
              (server (rq :: sent w) = NetErr
               \/ exists rr, server (rq :: sent w) = Resp rr
                             /\ chunk_accepted (status_code rr) = false) ->
              exists ws r w',
                (Raise e, w1) = (r, w')
                /\ r <> Diverge
                /\ wrote upload_url filesize ws (sent w) (sent w')
                /\ disk w' = disk w /\ stdout w' = stdout w
                /\ tiled start ws /\ full_but_last cs ws
                /\ (exists rest, f = window_bytes ws ++ rest
                                 /\ (r = Ret tt -> rest = []))
                /\ (forall e', r = Raise e' -> remote_failure e')
                /\ (accepts_chunks -> r = Ret tt)).
    { intros e He Hsrv. exists [(start, chunk)], (Raise e), w1.
      split; [reflexivity|]. split; [discriminate|]. split; [exact Hone|].
      split; [reflexivity|]. split; [reflexivity|].
      split; [cbn; auto|].
      split; [cbn [full_but_last fst snd]; split; [lia|]; split; [intros Hn; now destruct Hn|exact I]|].
      split.
      { exists f'. split; [|discriminate].
        unfold window_bytes. cbn [map concat snd]. now rewrite app_nil_r. }
      split; [intros e' [= <-]; exact He|].
      intros Hacc. destruct (Hacc (sent w) rq eq_refl) as (resp & Hr & Hok).
      destruct Hsrv as [Hn | (rr & Hrr & Hno)]; congruence. }
    destruct (server (rq :: sent w)) as [rr|] eqn:Hsrv.
    + destruct (chunk_accepted (status_code rr)) eqn:Hacc.
      * assert (Hfuel' : (Z.to_nat (ceil_div (len f') cs) < fuel)%nat).
        { destruct (Z.eq_dec (len chunk) cs) as [Heq|Hneq].
          - rewrite Hlen, Heq, ceil_div_full in Hfuel by assumption.
            pose proof (ceil_div_nonneg (len f') cs Hcs (len_nonneg f')). lia.
          - rewrite (Hshort ltac:(lia)). change (len []) with 0.
            rewrite ceil_div_0 by assumption.
            pose proof (ceil_div_pos (len f) cs Hcs ltac:(lia)). lia. }
        destruct (IH cs upload_url filesize f' (start + len chunk) w1 Hcs
                    ltac:(lia) Hfuel')
          as (ws & r & w' & Hrun & Hnd & Hw & Hd & Ho & Ht & Hfull & (rest & Hrest & Hall)
              & Hexn & Hok).
        exists ((start, chunk) :: ws), r, w'.
        split; [exact Hrun|]. split; [exact Hnd|].
        split.
        { unfold wrote in *. rewrite Hw, Hone. cbn [map rev app].
          rewrite <- app_assoc. reflexivity. }
        split; [exact Hd|]. split; [exact Ho|].
        split.
        { cbn [tiled]. split; [reflexivity|]. unfold window_end. cbn [fst snd].
          replace (start + len chunk - 1 + 1) with (start + len chunk) by lia.
          exact Ht. }
        split.
        { cbn [full_but_last fst snd]. split; [lia|]. split; [|exact Hfull].
          intros Hws. destruct (Z.eq_dec (len chunk) cs) as [Heq|Hneq]; [exact Heq|].
          exfalso. apply Hws. apply (full_but_last_nonempty cs); [exact Hfull|].
          rewrite (Hshort ltac:(lia)) in Hrest. symmetry in Hrest.
          now apply app_eq_nil in Hrest as [Hb _]. }
        split.
        { exists rest. split; [|exact Hall].
          unfold window_bytes in *. cbn [map concat snd].
          rewrite Hf, Hrest. now rewrite app_assoc. }
        split; [exact Hexn|exact Hok].
      * apply Hfail; [exact I|]. right. exists rr. split; [reflexivity|exact Hacc].
    + apply Hfail; [exact I|]. now left.
  - rewrite upload_loop_done by assumption.
    assert (Hnil : f = []) by (apply len_0_nil; pose proof (len_nonneg f); lia).
    exists [], (Ret tt), w.
    split; [reflexivity|]. split; [discriminate|]. split; [reflexivity|].
    split; [reflexivity|]. split; [reflexivity|]. split; [exact I|]. split; [exact I|].
    split; [exists []; split; [now rewrite Hnil|reflexivity]|].
    split; [discriminate|reflexivity].
Qed.

(** ** One file *)

Lemma upload_fuel_enough (data : list byte) :
  (Z.to_nat (ceil_div (len data) CHUNK_SIZE) < S (length data))%nat.
Proof.
  pose proof (ceil_div_le (len data) (len_nonneg data)). unfold len in *. lia.
Qed.

(** [upload_file] on a file that is there: it ends; the session request is
    the first thing sent, the windows follow, and they tile a prefix of the
    file, the whole file when the call returns. *)
Lemma upload_file_windows hdrs parent_id path data w :
  disk w !! path = Some data ->
  exists upload_url ws r w',
    upload_file hdrs parent_id path w = (r, w')
    /\ r <> Diverge
    /\ wrote upload_url (len data) ws
         (session_request hdrs parent_id path :: sent w) (sent w')
    /\ disk w' = disk w /\ stdout w' = stdout w
    /\ tiled 0 ws /\ full_but_last CHUNK_SIZE ws
    /\ (exists rest, data = window_bytes ws ++ rest /\ (r = Ret tt -> rest = []))
    /\ (forall e, r = Raise e -> remote_failure e)
    /\ (r = Ret tt -> exists rs, server (session_request hdrs parent_id path :: sent w) = Resp rs
                       /\ ok rs = true
                       /\ exists j, json_body rs = Some j
                                    /\ py_getitem j "uploadUrl" = Ret upload_url).
Proof.
  intros Hdisk.
  assert (Hstop : forall e w1, remote_failure e ->
            sent w1 = session_request hdrs parent_id path :: sent w ->
            disk w1 = disk w -> stdout w1 = stdout w ->
            exists upload_url ws r w',
              (@Raise unit e, w1) = (r, w')
              /\ r <> Diverge
              /\ wrote upload_url (len data) ws
                   (session_request hdrs parent_id path :: sent w) (sent w')
              /\ disk w' = disk w /\ stdout w' = stdout w
              /\ tiled 0 ws /\ full_but_last CHUNK_SIZE ws
              /\ (exists rest, data = window_bytes ws ++ rest /\ (r = Ret tt -> rest = []))
              /\ (forall e', r = Raise e' -> remote_failure e')
              /\ (r = Ret tt -> exists rs,
                    server (session_request hdrs parent_id path :: sent w) = Resp rs
                    /\ ok rs = true
                    /\ exists j, json_body rs = Some j
                                 /\ py_getitem j "uploadUrl" = Ret upload_url)).
  { intros e w1 He Hs Hd Ho. exists JNull, [], (Raise e), w1.
    split; [reflexivity|]. split; [discriminate|].
    split; [unfold wrote; cbn [map rev app]; exact Hs|].
    split; [exact Hd|]. split; [exact Ho|]. split; [exact I|]. split; [exact I|].
    split; [exists data; split; [reflexivity|discriminate]|].
    split; [intros e' [= <-]; exact He|discriminate]. }
  unfold upload_file, bind at 1, os_path_exists. rewrite Hdisk. cbn [negb].
  unfold bind at 1, log. unfold bind at 1, http. cbn [sent disk stdout stderr].
  destruct (server (session_request hdrs parent_id path :: sent w)) as [rs|] eqn:Hsrv;
    [|now apply Hstop].
  unfold bind at 1, raise_for_status.
  destruct (ok rs) eqn:Hok; [|now apply Hstop].
  unfold ret at 1. unfold bind at 1, resp_json.
  destruct (json_body rs) as [j|] eqn:Hj; [|now apply Hstop].
  unfold ret at 1. unfold bind at 1, lift.
  destruct (py_getitem j "uploadUrl") as [upload_url|e|] eqn:Hu.
  2:{ apply Hstop; try reflexivity.
      unfold py_getitem in Hu. destruct j; try (injection Hu as <-; exact I).
      destruct (dict_lookup "uploadUrl" fields); [discriminate|].
      injection Hu as <-; exact I. }
  2:{ exfalso. unfold py_getitem in Hu. destruct j; try discriminate.
      destruct (dict_lookup "uploadUrl" fields); discriminate. }
  unfold bind at 1, read_file. cbn [disk]. rewrite Hdisk.
  match goal with
  | |- context [bind _ _ ?w0] => set (w1 := w0)
  end.
  destruct (upload_loop_windows (S (length data)) CHUNK_SIZE upload_url (len data)
              data 0 w1 ltac:(reflexivity) ltac:(lia) (upload_fuel_enough data))
    as (ws & r & w' & Hrun & Hnd & Hw & Hd & Ho & Ht & Hfull & Hrest & Hexn & _).
  change (5 * 1024 * 1024) with CHUNK_SIZE.
  unfold bind at 1. rewrite Hrun.
  destruct r as [[]|e|]; [| |congruence].
  - exists upload_url, ws, (Ret tt), (mkWorld (disk w') (sent w') (stdout w')
      (stderr w' ++ ["File '" +:+ path +:+ "' uploaded successfully."])).
    split; [reflexivity|]. split; [discriminate|].
    split; [exact Hw|]. split; [exact Hd|]. split; [exact Ho|].
    split; [exact Ht|]. split; [exact Hfull|]. split; [exact Hrest|].
    split; [discriminate|].
    intros _. exists rs. split; [reflexivity|]. split; [exact Hok|].
    exists j. split; [exact Hj|exact Hu].
  - exists upload_url, ws, (Raise e), w'.
    split; [reflexivity|]. split; [discriminate|].
    split; [exact Hw|]. split; [exact Hd|]. split; [exact Ho|].
    split; [exact Ht|]. split; [exact Hfull|]. split; [exact Hrest|].
    split; [exact Hexn|discriminate].
Qed.

Lemma total_length_bytes ws : total_length ws = len (window_bytes ws).
Proof.
  unfold total_length, window_bytes. induction ws as [|x rest IH]; [reflexivity|].
  cbn [map fold_right concat]. rewrite len_app, IH. reflexivity.
Qed.

Lemma full_but_last_positive cs ws :
  full_but_last cs ws -> Forall (fun x => 0 < len (snd x) <= cs) ws.
Proof.
  induction ws as [|x rest IH]; intros Hf; constructor.
  - apply Hf.
  - apply IH, Hf.
Qed.

Lemma full_but_last_full cs ws :
  full_but_last cs ws ->
  forall i x, ws !! i = Some x -> (S i < length ws)%nat -> len (snd x) = cs.
Proof.
  induction ws as [|a rest IH]; intros Hf i x Hx Hi; [discriminate|].
  destruct Hf as (_ & Hnext & Hrest). destruct i as [|i].
  - cbn in Hx. injection Hx as <-. apply Hnext.
    destruct rest; [cbn in Hi; lia|discriminate].
  - cbn in Hx. apply (IH Hrest i x Hx). cbn [length] in Hi. lia.
Qed.

Lemma chunk_writes_wrote upload_url filesize ws tr tr' :
  wrote upload_url filesize ws tr tr' ->
  chunk_writes tr' = rev (map (window_request upload_url filesize) ws) ++ chunk_writes tr.
Proof.
  unfold wrote, chunk_writes. intros ->. rewrite List.filter_app. f_equal.
  induction ws as [|x rest IH]; [reflexivity|].
  cbn [map rev]. rewrite List.filter_app, IH. reflexivity.
Qed.

(** [int(s)] for a decimal text. *)
Lemma str_of_Z_read z :
  option_map Z.of_int (NilZero.int_of_string (str_of_Z z)) = Some z.
Proof.
  unfold str_of_Z. rewrite NilZero.isi.
  - cbn [option_map]. now rewrite DecimalZ.of_to.
  - destruct z; try discriminate. cbn [Z.to_int]. intros [= H].
    now apply DecimalPos.Unsigned.to_uint_nonnil in H.
  - destruct z; try discriminate. cbn [Z.to_int]. intros [= H].
    now apply DecimalPos.Unsigned.to_uint_nonnil in H.
Qed.

(** The same text is the same number. *)
Lemma str_of_Z_inj a b : str_of_Z a = str_of_Z b -> a = b.
Proof.
  intros H. pose proof (str_of_Z_read a) as Ha. rewrite H, str_of_Z_read in Ha.
  now injection Ha.
Qed.

(** The offset of a window is the number of bytes of the windows before
    it. *)
Lemma tiled_offset_bytes ws :
  tiled 0 ws ->
  forall i x, ws !! i = Some x -> fst x = len (window_bytes (take i ws)).
Proof.
  intros Ht i x Hx. rewrite (tiled_sum 0 ws Ht i x Hx). apply Z.add_0_l.
Qed.

(** C3: windows of [upload_file].  Whatever the service answers, the
    requests [upload_file] makes on a file holding [data] are the opening of
    the session and then, window by window, a [PUT] to the upload URL whose
    body is the window, whose [Content-Length] is its length and whose
    [Content-Range] reads [bytes start-end/total], with [start] the offset of
    the window, [end] the offset of its last byte and [total] the size of the
    file.  The windows are read from offset 0, each starts at the byte count
    of the ones before it, each is exactly 5 MiB except a last one that may be
    shorter, so the ranges are contiguous, strictly increasing and do not
    overlap; they are a prefix of the file, and when the call returns they are
    the whole file, so the lengths sum to the file size. *)
Theorem upload_file_partitions hdrs parent_id path data w r w' :
  disk w !! path = Some data ->
  upload_file hdrs parent_id path w = (r, w') ->
  exists upload_url ws,
    sent w' =
      rev (map (fun x =>
                  mkRequest PUT (py_str upload_url)
                    [("Content-Length", str_of_Z (len (snd x)));
                     ("Content-Range",
                      "bytes " +:+ str_of_Z (fst x) +:+ "-"
                      +:+ str_of_Z (fst x + len (snd x) - 1) +:+ "/"
                      +:+ str_of_Z (len data))]
                    [] (Raw (snd x))) ws)
      ++ session_request hdrs parent_id path :: sent w
    /\ tiled 0 ws
    /\ full_but_last CHUNK_SIZE ws
    /\ (forall i x, ws !! i = Some x ->
          fst x = len (window_bytes (take i ws))
          /\ 0 < len (snd x) <= 5 * 1024 * 1024
          /\ ((S i < length ws)%nat -> len (snd x) = 5 * 1024 * 1024))
    /\ (forall i x y, ws !! i = Some x -> ws !! S i = Some y ->
          fst x <= fst x + len (snd x) - 1
          /\ fst x + len (snd x) - 1 < fst y
          /\ fst y = (fst x + len (snd x) - 1) + 1)
    /\ (exists rest, data = window_bytes ws ++ rest)
    /\ (r = Ret tt -> window_bytes ws = data /\ total_length ws = len data)
    /\ r <> Diverge.
Proof.
  intros Hdisk Hrun.
  destruct (upload_file_windows hdrs parent_id path data w Hdisk)
    as (upload_url & ws & r0 & w0 & Hrun0 & Hnd & Hw & _ & _ & Ht & Hfull
        & (rest & Hrest & Hall) & _ & _).
  rewrite Hrun in Hrun0. injection Hrun0 as <- <-.
  exists upload_url, ws.
  pose proof (full_but_last_positive _ _ Hfull) as Hpos.
  rewrite Forall_lookup in Hpos.
  split; [exact Hw|]. split; [exact Ht|]. split; [exact Hfull|].
  split.
  { intros i x Hx. split; [exact (tiled_offset_bytes ws Ht i x Hx)|].
    split; [exact (Hpos i x Hx)|].
    intros Hi. exact (full_but_last_full _ _ Hfull i x Hx Hi). }
  split.
  { intros i x y Hx Hy.
    pose proof (tiled_offsets 0 ws Ht i x y Hx Hy) as Hnext.
    specialize (Hpos i x Hx). cbn beta in Hpos.
    unfold window_end in *. lia. }
  split; [exists rest; exact Hrest|].
  split; [|exact Hnd].
  intros Hr. specialize (Hall Hr). subst rest. rewrite app_nil_r in Hrest.
  split; [now symmetry|]. rewrite total_length_bytes. now rewrite <- Hrest.
Qed.

(** C10: the chunk loop ends.  On a file that holds exactly the [len f]
    bytes its size announces, the loop of [upload_file] ends on any fuel
    above [ceil(len f / 5 MiB)], whatever the service answers; it makes at
    most that many chunk writes, exactly that many when it returns (as it
    does when the service takes every write), none for an empty file; the
    cursor moves by the positive length of each window. *)
Theorem upload_loop_terminates fuel upload_url f w :
  (Z.to_nat (ceil_div (len f) CHUNK_SIZE) < fuel)%nat ->
  exists ws r w',
    upload_loop fuel CHUNK_SIZE upload_url (len f) f 0 w = (r, w')
    /\ r <> Diverge
    /\ wrote upload_url (len f) ws (sent w) (sent w')
    /\ Z.of_nat (length ws) <= ceil_div (len f) CHUNK_SIZE
    /\ (r = Ret tt -> Z.of_nat (length ws) = ceil_div (len f) CHUNK_SIZE)
    /\ (accepts_chunks -> r = Ret tt)
    /\ (f = [] -> ws = [] /\ r = Ret tt)
    /\ tiled 0 ws
    /\ Forall (fun x => 0 < len (snd x)) ws.
Proof.
  intros Hfuel.
  assert (Hcs : 0 < CHUNK_SIZE) by reflexivity.
  destruct (upload_loop_windows fuel CHUNK_SIZE upload_url (len f) f 0 w Hcs
              ltac:(lia) Hfuel)
    as (ws & r & w' & Hrun & Hnd & Hw & _ & _ & Ht & Hfull & (rest & Hrest & Hall)
        & _ & Hacc).
  exists ws, r, w'.
  pose proof (full_but_last_count _ _ Hcs Hfull) as Hcount.
  split; [exact Hrun|]. split; [exact Hnd|]. split; [exact Hw|].
  split.
  { rewrite Hcount. apply ceil_div_mono; [exact Hcs|].
    rewrite Hrest, len_app. pose proof (len_nonneg rest). lia. }
  split.
  { intros Hr. rewrite (Hall Hr), app_nil_r in Hrest. now rewrite Hcount, <- Hrest. }
  split; [exact Hacc|].
  split.
  { intros ->. split.
    - apply (full_but_last_nonempty CHUNK_SIZE); [exact Hfull|].
      symmetry in Hrest. now apply app_eq_nil in Hrest as [Hb _].
    - destruct fuel as [|fuel]; [lia|].
      rewrite upload_loop_done in Hrun by (unfold len; simpl; lia). now injection Hrun as <- _. }
  split; [exact Ht|].
  eapply Forall_impl; [apply full_but_last_positive, Hfull|].
  cbn beta. intros x Hx. lia.
Qed.

(** X18: a file that shrank.  The size has to stay what it was: on a handle
    that runs dry before the announced size the loop never ends while the
    service takes the (empty) writes. *)
Remark upload_loop_truncated_diverges cs upload_url filesize start :
  accepts_chunks -> start < filesize ->
  forall fuel w, fst (upload_loop fuel cs upload_url filesize [] start w) = Diverge.
Proof.
  intros Hacc Hlt. induction fuel as [|fuel IH]; intros w; [reflexivity|].
  rewrite upload_loop_step by assumption. cbn [f_read fst snd]. cbv zeta.
  destruct (Hacc (sent w) (chunk_request upload_url filesize start []) eq_refl)
    as (resp & -> & ->).
  change (len []) with 0. rewrite Z.add_0_r. apply IH.
Qed.

(** ** What a stage leaves alone *)

Lemma keeps_ret {A X} (proj : world -> X) (a : A) : keeps proj (ret a).
Proof. intros w r w' [= <- <-]. reflexivity. Qed.

Lemma keeps_raise {A X} (proj : world -> X) e : keeps proj (@raise A e).
Proof. intros w r w' [= <- <-]. reflexivity. Qed.

Lemma keeps_lift {A X} (proj : world -> X) (o : outcome A) : keeps proj (lift o).
Proof. intros w r w' [= <- <-]. reflexivity. Qed.

Lemma keeps_bind {A B X} (proj : world -> X) (m : M A) (k : A -> M B) :
  keeps proj m -> (forall a, keeps proj (k a)) -> keeps proj (bind m k).
Proof.
  intros Hm Hk w r w' Hrun. unfold bind in Hrun.
  destruct (m w) as [[a|e|] w1] eqn:E.
  - rewrite (Hk a _ _ _ Hrun). exact (Hm _ _ _ E).
  - injection Hrun as <- <-. exact (Hm _ _ _ E).
  - injection Hrun as <- <-. exact (Hm _ _ _ E).
Qed.

Lemma keeps_log_stdout s : keeps stdout (log s).
Proof. intros w r w' [= <- <-]. reflexivity. Qed.

Lemma keeps_log_disk s : keeps disk (log s).
Proof. intros w r w' [= <- <-]. reflexivity. Qed.

Lemma keeps_log_sent s : keeps sent (log s).
Proof. intros w r w' [= <- <-]. reflexivity. Qed.

Lemma keeps_http_stdout rq : keeps stdout (http rq).
Proof. intros w r w' H. unfold http in H. destruct (server _); now injection H as <- <-. Qed.

Lemma keeps_http_disk rq : keeps disk (http rq).
Proof. intros w r w' H. unfold http in H. destruct (server _); now injection H as <- <-. Qed.

Lemma keeps_exists {X} (proj : world -> X) p : keeps proj (os_path_exists p).
Proof. intros w r w' [= <- <-]. reflexivity. Qed.

Lemma keeps_read_file {X} (proj : world -> X) p : keeps proj (read_file p).
Proof. intros w r w' H. unfold read_file in H. destruct (disk w !! p); now injection H as <- <-. Qed.

Lemma keeps_write_stdout p s : keeps stdout (write_text p s).
Proof. intros w r w' [= <- <-]. reflexivity. Qed.

Lemma keeps_write_sent p s : keeps sent (write_text p s).
Proof. intros w r w' [= <- <-]. reflexivity. Qed.

Lemma keeps_raise_for_status {X} (proj : world -> X) r : keeps proj (raise_for_status r).
Proof. unfold raise_for_status. destruct (ok r); [apply keeps_ret|apply keeps_raise]. Qed.

Lemma keeps_resp_json {X} (proj : world -> X) r : keeps proj (resp_json r).
Proof. unfold resp_json. destruct (json_body r); [apply keeps_ret|apply keeps_raise]. Qed.

Create HintDb stage.

#[local] Hint Resolve keeps_ret keeps_raise keeps_lift keeps_log_stdout keeps_log_disk
  keeps_log_sent keeps_http_stdout keeps_http_disk keeps_exists keeps_read_file
  keeps_write_stdout keeps_write_sent keeps_raise_for_status keeps_resp_json : stage.

Ltac keeps_step :=
  match goal with
  | |- keeps _ (bind _ _) => apply keeps_bind; [|intros ?]
  | |- keeps _ (if ?b then _ else _) => destruct b
  | |- keeps _ (match ?x with _ => _ end) => destruct x
  | |- keeps _ _ => solve [auto with stage]
  end.

Ltac keeps_tac := repeat keeps_step.

Lemma keeps_get_access_token_stdout : keeps stdout get_access_token.
Proof. unfold get_access_token. keeps_tac. Qed.

Lemma keeps_get_access_token_disk : keeps disk get_access_token.
Proof. unfold get_access_token. keeps_tac. Qed.

Lemma keeps_get_or_create_folder_stdout hdrs p n :
  keeps stdout (get_or_create_folder hdrs p n).
Proof. unfold get_or_create_folder. keeps_tac. Qed.

Lemma keeps_get_or_create_folder_disk hdrs p n :
  keeps disk (get_or_create_folder hdrs p n).
Proof. unfold get_or_create_folder. keeps_tac. Qed.

Lemma keeps_grant_stdout hdrs i l n : keeps stdout (grant_folder_access hdrs i l n).
Proof. unfold grant_folder_access. keeps_tac. Qed.

Lemma keeps_grant_disk hdrs i l n : keeps disk (grant_folder_access hdrs i l n).
Proof. unfold grant_folder_access. keeps_tac. Qed.

Lemma keeps_upload_loop_stdout fuel cs u fs f start :
  keeps stdout (upload_loop fuel cs u fs f start).
Proof.
  revert f start. induction fuel as [|fuel IH]; intros f start; cbn [upload_loop].
  - auto with stage.
  - destruct (start <? fs); [|auto with stage].
    destruct (f_read cs f) as [chunk f']. keeps_tac; try apply IH.
Qed.

Lemma keeps_upload_loop_disk fuel cs u fs f start :
  keeps disk (upload_loop fuel cs u fs f start).
Proof.
  revert f start. induction fuel as [|fuel IH]; intros f start; cbn [upload_loop].
  - auto with stage.
  - destruct (start <? fs); [|auto with stage].
    destruct (f_read cs f) as [chunk f']. keeps_tac; try apply IH.
Qed.

#[local] Hint Resolve keeps_get_access_token_stdout keeps_get_access_token_disk
  keeps_get_or_create_folder_stdout keeps_get_or_create_folder_disk
  keeps_grant_stdout keeps_grant_disk keeps_upload_loop_stdout
  keeps_upload_loop_disk : stage.

Lemma keeps_upload_file_stdout hdrs p path : keeps stdout (upload_file hdrs p path).
Proof. unfold upload_file. keeps_tac. Qed.

Lemma keeps_upload_file_disk hdrs p path : keeps disk (upload_file hdrs p path).
Proof. unfold upload_file. keeps_tac. Qed.

#[local] Hint Resolve keeps_upload_file_stdout keeps_upload_file_disk : stage.

Lemma keeps_upload_each_stdout hdrs sid n files acc :
  keeps stdout (upload_each hdrs sid n files acc).
Proof.
  revert acc. induction files as [|p rest IH]; intros acc; cbn [upload_each].
  - auto with stage.
  - keeps_tac; try apply IH.
Qed.

Lemma keeps_upload_each_disk hdrs sid n files acc :
  keeps disk (upload_each hdrs sid n files acc).
Proof.
  revert acc. induction files as [|p rest IH]; intros acc; cbn [upload_each].
  - auto with stage.
  - keeps_tac; try apply IH.
Qed.

Lemma keeps_resolve_folders_stdout args : keeps stdout (resolve_folders args).
Proof. unfold resolve_folders. keeps_tac. Qed.

Lemma keeps_resolve_folders_disk args : keeps disk (resolve_folders args).
Proof. unfold resolve_folders. keeps_tac. Qed.

Lemma keeps_default_file_step_stdout args : keeps stdout (default_file_step args).
Proof. unfold default_file_step. keeps_tac. Qed.

Lemma keeps_default_file_step_sent args : keeps sent (default_file_step args).
Proof. unfold default_file_step. keeps_tac. Qed.

#[local] Hint Resolve keeps_upload_each_stdout keeps_upload_each_disk
  keeps_resolve_folders_stdout keeps_resolve_folders_disk
  keeps_default_file_step_stdout keeps_default_file_step_sent : stage.

(** [main] prints nothing on standard output: only the guard does. *)
Lemma keeps_main_stdout args : keeps stdout (main args).
Proof. unfold main. keeps_tac. Qed.

(** ** The orchestrator *)

Lemma main_after_setup args w hdrs subfolder_id w2 :
  reaches_uploads args w hdrs subfolder_id w2 ->
  main args w =
    (successfully_uploaded_files <-
       upload_each hdrs subfolder_id (length (files_to_upload args))
         (files_to_upload args) [] ;;
     share_link <- grant_folder_access hdrs subfolder_id
                     (DEFAULT_RECIPIENT_EMAILS ++ new_emails args) (subfolder args) ;;
     log ("Direct access granted. Invite link: " +:+ py_str share_link) ;;;
     ret (success_record (subfolder args) subfolder_id successfully_uploaded_files
            (DEFAULT_RECIPIENT_EMAILS ++ new_emails args) share_link)) w2.
Proof.
  intros (w1 & H1 & H2). unfold main.
  rewrite (bind_ret _ _ _ _ _ H1). cbv beta iota zeta.
  rewrite (bind_ret _ _ _ _ _ H2). reflexivity.
Qed.

Lemma script_success args w out w1 :
  main args w = (Ret out, w1) ->
  script args w =
    (Some 0, mkWorld (disk w1) (sent w1) (stdout w1 ++ [out]) (stderr w1)).
Proof. intros H. unfold script. rewrite H. reflexivity. Qed.

Lemma script_failure args w e w1 :
  main args w = (Raise e, w1) -> is_Exception e = true ->
  script args w = (Some 1, after_failure e w1).
Proof. intros H He. unfold script. rewrite H, He. reflexivity. Qed.

Lemma script_system_exit args w msg w1 :
  main args w = (Raise (SystemExit msg), w1) ->
  script args w =
    (Some 1, mkWorld (disk w1) (sent w1) (stdout w1) (stderr w1 ++ [msg])).
Proof. intros H. unfold script. rewrite H. reflexivity. Qed.

(** The upload loop of [main] over a list in two parts. *)
Lemma upload_each_app hdrs sid n pre rest acc w :
  upload_each hdrs sid n (pre ++ rest) acc w =
    (ups <- upload_each hdrs sid n pre acc ;; upload_each hdrs sid n rest ups) w.
Proof.
  revert acc w. induction pre as [|p pre IH]; intros acc w; [reflexivity|].
  cbn [app upload_each].
  rewrite bind_assoc. apply bind_ext. intros _ w1.
  rewrite bind_assoc. apply bind_ext. intros _ w2.
  apply IH.
Qed.

Lemma upload_each_ret hdrs sid n files acc w ups w' :
  upload_each hdrs sid n files acc w = (Ret ups, w') -> ups = acc ++ files.
Proof.
  revert acc w. induction files as [|p rest IH]; intros acc w H; cbn [upload_each] in H.
  - injection H as <- _. now rewrite app_nil_r.
  - unfold bind at 1 in H. cbn [log] in H. unfold bind at 1 in H.
    destruct (upload_file hdrs sid p _) as [[[]|e|] w2]; try discriminate.
    apply IH in H. rewrite H, <- app_assoc. reflexivity.
Qed.

(** The world in which [main] calls [upload_file] on [file_path]: the
    progress line is on standard error. *)
Lemma upload_each_head hdrs sid n file_path rest acc w :
  upload_each hdrs sid n (file_path :: rest) acc w =
    (upload_file hdrs sid file_path ;;;
     upload_each hdrs sid n rest (acc ++ [file_path]))
      (logged w (progress_line acc n file_path)).
Proof. reflexivity. Qed.

(** ** A file that is not there *)

Lemma upload_file_missing hdrs parent_id path w :
  disk w !! path = None ->
  upload_file hdrs parent_id path w =
    (Raise (FileNotFoundError ("The specified file does not exist: " +:+ path)), w).
Proof.
  intros H. unfold upload_file, bind, os_path_exists. rewrite H. reflexivity.
Qed.

(** C5, amended: a missing input file.  When the run of the script comes to
    upload a path that is not on disk at that moment (a lone
    [test_upload.txt] is written by [main] beforehand, so it is on disk by
    then), [upload_file] raises at its existence check and leaves the world as
    it found it (no request is made for that file); the script ends with exit
    code 1, prints the failure record alone, and the [error] of that record
    ends with the literal path. *)
Theorem missing_file_fails args w hdrs subfolder_id w2 pre path post ups w3 :
  reaches_uploads args w hdrs subfolder_id w2 ->
  files_to_upload args = pre ++ path :: post ->
  upload_each hdrs subfolder_id (length (files_to_upload args)) pre [] w2
    = (Ret ups, w3) ->
  disk w3 !! path = None ->
  (forall w0, disk w0 = disk w3 ->
     upload_file hdrs subfolder_id path w0 =
       (Raise (FileNotFoundError ("The specified file does not exist: " +:+ path)), w0))
  /\ exists w',
       script args w = (Some 1, w')
       /\ stdout w' = stdout w ++
            [JObj [("status", JStr "failure");
                   ("error", JStr ("The specified file does not exist: " +:+ path))]]
       /\ sent w' = sent w3
       /\ disk w' = disk w3.
Proof.
  intros Hreach Hfiles Hpre Hmiss.
  set (error := "The specified file does not exist: " +:+ path).
  split.
  { intros w0 Hd. apply upload_file_missing. now rewrite Hd. }
  assert (Hmain : exists w4, main args w = (Raise (FileNotFoundError error), w4)
                             /\ sent w4 = sent w3 /\ disk w4 = disk w3
                             /\ stdout w4 = stdout w3).
  { rewrite (main_after_setup _ _ _ _ _ Hreach). rewrite Hfiles in Hpre |- *.
    unfold bind at 1. rewrite upload_each_app.
    rewrite (bind_ret _ _ _ _ _ Hpre), upload_each_head.
    unfold bind at 1. rewrite upload_file_missing by exact Hmiss.
    eexists. split; [reflexivity|]. repeat split. }
  destruct Hmain as (w4 & Hmain & Hs & Hd & Ho).
  exists (after_failure (FileNotFoundError error) w4).
  split; [now apply script_failure|].
  split.
  { cbn [after_failure stdout exn_str]. rewrite Ho. f_equal.
    destruct Hreach as (w1 & H1 & H2).
    rewrite (keeps_upload_each_stdout _ _ _ _ _ _ _ _ Hpre).
    rewrite (keeps_default_file_step_stdout _ _ _ _ H2).
    exact (keeps_resolve_folders_stdout _ _ _ _ H1). }
  split; [exact Hs|exact Hd].
Qed.

(** ** A chunk that is turned down *)

Lemma chunk_accepted_iff status :
  chunk_accepted status = true <-> status = 200 \/ status = 201 \/ status = 202.
Proof. unfold chunk_accepted. lia. Qed.

(** The loop of [upload_file] is its last effect but for one line of log:
    what the loop raises, [upload_file] raises. *)
Lemma upload_file_loop_raise hdrs parent_id path data w rs j upload_url e w' :
  disk w !! path = Some data ->
  server (session_request hdrs parent_id path :: sent w) = Resp rs ->
  ok rs = true -> json_body rs = Some j ->
  py_getitem j "uploadUrl" = Ret upload_url ->
  upload_loop (S (length data)) CHUNK_SIZE upload_url (len data) data 0
    (session_world hdrs parent_id path w) = (Raise e, w') ->
  upload_file hdrs parent_id path w = (Raise e, w').
Proof.
  intros Hdisk Hsrv Hok Hj Hu Hloop.
  unfold upload_file, bind at 1, os_path_exists. rewrite Hdisk. cbn [negb].
  unfold bind at 1, log. unfold bind at 1, http. cbn [sent disk stdout stderr].
  rewrite Hsrv. unfold bind at 1, raise_for_status. rewrite Hok.
  unfold ret at 1. unfold bind at 1, resp_json. rewrite Hj.
  unfold ret at 1. unfold bind at 1, lift. rewrite Hu.
  unfold bind at 1, read_file. cbn [disk]. rewrite Hdisk.
  apply bind_raise. exact Hloop.
Qed.

(** C8: the status of a chunk write.  The accepted codes are 200, 201 and
    202.  On an accepted answer the loop goes on to the next window; on any
    other it raises at once, the turned-down write being the last request
    (no second try, no further window).  What the loop raises, [upload_file]
    raises; [main] then leaves the remaining files alone, and the script ends
    with exit code 1 and a failure record, without another request. *)
Theorem chunk_status_decides :
  (forall status,
     chunk_accepted status = true <-> status = 200 \/ status = 201 \/ status = 202)
  /\ (forall fuel cs upload_url filesize f start w rr,
        start < filesize ->
        server (chunk_request upload_url filesize start (fst (f_read cs f)) :: sent w)
          = Resp rr ->
        let chunk := fst (f_read cs f) in
        let w1 := after_chunk upload_url filesize start chunk w in
        sent w1 = chunk_request upload_url filesize start chunk :: sent w
        /\ (chunk_accepted (status_code rr) = true ->
            upload_loop (S fuel) cs upload_url filesize f start w =
              upload_loop fuel cs upload_url filesize (snd (f_read cs f))
                (start + len chunk) w1)
        /\ (chunk_accepted (status_code rr) = false ->
            upload_loop (S fuel) cs upload_url filesize f start w =
              (Raise (Exception ("Chunk upload failed: " +:+ str_of_Z (status_code rr)
                                 +:+ nl +:+ text rr)), w1)))
  /\ (forall hdrs parent_id path data w rs j upload_url e w',
        disk w !! path = Some data ->
        server (session_request hdrs parent_id path :: sent w) = Resp rs ->
        ok rs = true -> json_body rs = Some j ->
        py_getitem j "uploadUrl" = Ret upload_url ->
        upload_loop (S (length data)) CHUNK_SIZE upload_url (len data) data 0
          (session_world hdrs parent_id path w) = (Raise e, w') ->
        upload_file hdrs parent_id path w = (Raise e, w'))
  /\ (forall hdrs subfolder_id total file_path rest uploaded w e w',
        upload_file hdrs subfolder_id file_path
          (logged w (progress_line uploaded total file_path)) = (Raise e, w') ->
        upload_each hdrs subfolder_id total (file_path :: rest) uploaded w
          = (Raise e, w'))
  /\ (forall args w hdrs subfolder_id w2 e w4,
        reaches_uploads args w hdrs subfolder_id w2 ->
        upload_each hdrs subfolder_id (length (files_to_upload args))
          (files_to_upload args) [] w2 = (Raise e, w4) ->
        is_Exception e = true ->
        script args w = (Some 1, after_failure e w4)
        /\ sent (after_failure e w4) = sent w4
        /\ stdout (after_failure e w4) = stdout w ++ [failure_record (exn_str e)]).
Proof.
  split; [exact chunk_accepted_iff|].
  split.
  { intros fuel cs upload_url filesize f start w rr Hlt Hsrv chunk w1.
    subst chunk w1. split; [reflexivity|].
    split; intros Hacc; rewrite upload_loop_step by assumption; cbv zeta;
      rewrite Hsrv, Hacc; reflexivity. }
  split; [exact upload_file_loop_raise|].
  split.
  { intros hdrs sid total file_path rest uploaded w e w' Hup.
    rewrite upload_each_head. now apply bind_raise. }
  intros args w hdrs sid w2 e w4 Hreach Hup He.
  assert (Hmain : main args w = (Raise e, w4)).
  { rewrite (main_after_setup _ _ _ _ _ Hreach). now apply bind_raise. }
  split; [now apply script_failure|].
  split; [reflexivity|].
  cbn [after_failure stdout]. f_equal.
  exact (keeps_main_stdout _ _ _ _ Hmain).
Qed.

(** ** The empty file *)

(** C2, amended: for a zero-length file the guard [start < filesize] of the
    loop is false at once, so [upload_file] opens the upload session and
    sends no window at all; no range is formed for the empty file. *)
Theorem empty_file_sends_no_window hdrs parent_id path w :
  disk w !! path = Some [] ->
  (forall fuel cs upload_url f w0,
     upload_loop (S fuel) cs upload_url 0 f 0 w0 = (Ret tt, w0))
  /\ exists r w',
       upload_file hdrs parent_id path w = (r, w')
       /\ r <> Diverge
       /\ sent w' = session_request hdrs parent_id path :: sent w
       /\ chunk_writes (sent w') = chunk_writes (sent w).
Proof.
  intros Hdisk. split.
  { intros. apply upload_loop_done. lia. }
  destruct (upload_file_windows hdrs parent_id path [] w Hdisk)
    as (upload_url & ws & r & w' & Hrun & Hnd & Hw & _ & _ & _ & Hfull
        & (rest & Hrest & _) & _ & _).
  assert (Hws : ws = []).
  { apply (full_but_last_nonempty CHUNK_SIZE); [exact Hfull|].
    symmetry in Hrest. now apply app_eq_nil in Hrest as [Hb _]. }
  subst ws. unfold wrote in Hw. cbn [map rev app] in Hw.
  exists r, w'. split; [exact Hrun|]. split; [exact Hnd|]. split; [exact Hw|].
  rewrite Hw. reflexivity.
Qed.

(** ** The invitation *)

Lemma py_get_raise v k d e : py_get v k d = Raise e -> e = LibError AttributeError.
Proof.
  unfold py_get. destruct v; try (now intros [= <-]).
  destruct (dict_lookup k fields); discriminate.
Qed.

Lemma grant_answered hdrs item_id email_list sub_folder_name w permissions :
  invite_answer hdrs item_id email_list sub_folder_name w permissions ->
  grant_folder_access hdrs item_id email_list sub_folder_name w =
    (if negb (truthy permissions) then raise (Exception no_permission_message)
     else
       first <- lift (py_first permissions) ;;
       l <- lift (py_get first "link" (JObj [])) ;;
       link <- lift (py_get l "webUrl" JNull) ;;
       if negb (truthy link) then
         log "Warning: Invite sent, but no webUrl was found in the API response." ;;;
         ret (JStr (no_link_placeholder item_id))
       else ret link)
      (invited hdrs item_id email_list sub_folder_name w).
Proof.
  intros (rs & j & Hsrv & Hok & Hj & Hv).
  unfold grant_folder_access, bind at 1, log. unfold bind at 1, http.
  cbn [sent disk stdout stderr]. rewrite Hsrv, Hok. cbn [negb].
  unfold bind at 1, resp_json. rewrite Hj. unfold ret at 1.
  unfold bind at 1, lift at 1. rewrite Hv. reflexivity.
Qed.

Lemma main_after_uploads args w hdrs subfolder_id w2 ups w3 :
  reaches_uploads args w hdrs subfolder_id w2 ->
  upload_each hdrs subfolder_id (length (files_to_upload args))
    (files_to_upload args) [] w2 = (Ret ups, w3) ->
  ups = files_to_upload args
  /\ main args w =
       (share_link <- grant_folder_access hdrs subfolder_id (recipients args)
                        (subfolder args) ;;
        log ("Direct access granted. Invite link: " +:+ py_str share_link) ;;;
        ret (success_record (subfolder args) subfolder_id (files_to_upload args)
               (recipients args) share_link)) w3.
Proof.
  intros Hreach Hup. pose proof (upload_each_ret _ _ _ _ _ _ _ _ Hup) as Hups.
  cbn [app] in Hups. split; [exact Hups|].
  rewrite (main_after_setup _ _ _ _ _ Hreach).
  rewrite (bind_ret _ _ _ _ _ Hup). now rewrite Hups.
Qed.

(** C6: no permission record.  When the invitation comes back as a success
    whose permission list is empty, [grant_folder_access] raises its
    descriptive error and the script ends with exit code 1, printing the
    failure record alone (no invite link); a list with a record in it never
    raises that error. *)
Theorem empty_permissions_fail args w hdrs subfolder_id w2 ups w3 permissions :
  reaches_uploads args w hdrs subfolder_id w2 ->
  upload_each hdrs subfolder_id (length (files_to_upload args))
    (files_to_upload args) [] w2 = (Ret ups, w3) ->
  invite_answer hdrs subfolder_id (recipients args) (subfolder args) w3 permissions ->
  (permissions = JArr [] ->
     grant_folder_access hdrs subfolder_id (recipients args) (subfolder args) w3
       = (Raise (Exception no_permission_message),
          invited hdrs subfolder_id (recipients args) (subfolder args) w3)
     /\ exists w',
          script args w = (Some 1, w')
          /\ stdout w' = stdout w ++
               [JObj [("status", JStr "failure");
                      ("error", JStr "Invite sent, but no permission data was returned.")]])
  /\ (forall p ps, permissions = JArr (p :: ps) ->
        fst (grant_folder_access hdrs subfolder_id (recipients args) (subfolder args) w3)
          <> Raise (Exception no_permission_message)).
Proof.
  intros Hreach Hup Hans.
  destruct (main_after_uploads _ _ _ _ _ _ _ Hreach Hup) as [_ Hmain].
  pose proof (grant_answered _ _ _ _ _ _ Hans) as Hgrant.
  split.
  - intros ->. cbn [truthy negb] in Hgrant. split; [exact Hgrant|].
    rewrite (bind_raise _ _ _ _ _ Hgrant) in Hmain.
    exists (after_failure (Exception no_permission_message)
              (invited hdrs subfolder_id (recipients args) (subfolder args) w3)).
    split; [now apply script_failure|].
    cbn [after_failure stdout invited exn_str]. f_equal.
    destruct Hreach as (w1 & H1 & H2).
    rewrite (keeps_upload_each_stdout _ _ _ _ _ _ _ _ Hup).
    rewrite (keeps_default_file_step_stdout _ _ _ _ H2).
    exact (keeps_resolve_folders_stdout _ _ _ _ H1).
  - intros p ps ->. rewrite Hgrant. cbn [truthy negb py_first].
    unfold bind, lift, ret, raise, log.
    destruct (py_get p "link" (JObj [])) as [l|e|] eqn:Hl; cbn [fst].
    + destruct (py_get l "webUrl" JNull) as [link|e|] eqn:Hk; cbn [fst].
      * destruct (truthy link); cbn [negb fst]; discriminate.
      * apply py_get_raise in Hk as ->. discriminate.
      * discriminate.
    + apply py_get_raise in Hl as ->. discriminate.
    + discriminate.
Qed.

Lemma script_after_grant args w hdrs subfolder_id w2 ups w3 link w4 :
  reaches_uploads args w hdrs subfolder_id w2 ->
  upload_each hdrs subfolder_id (length (files_to_upload args))
    (files_to_upload args) [] w2 = (Ret ups, w3) ->
  grant_folder_access hdrs subfolder_id (recipients args) (subfolder args) w3
    = (Ret link, w4) ->
  exists w',
    script args w = (Some 0, w')
    /\ stdout w' = stdout w ++
         [success_record (subfolder args) subfolder_id (files_to_upload args)
            (recipients args) link]
    /\ sent w' = sent w4.
Proof.
  intros Hreach Hup Hgrant.
  destruct (main_after_uploads _ _ _ _ _ _ _ Hreach Hup) as [_ Hmain].
  rewrite (bind_ret _ _ _ _ _ Hgrant) in Hmain.
  eexists. split; [exact (script_success _ _ _ _ Hmain)|].
  cbn [stdout sent]. split; [|reflexivity]. f_equal.
  rewrite (keeps_grant_stdout _ _ _ _ _ _ _ Hgrant).
  destruct Hreach as (w1 & H1 & H2).
  rewrite (keeps_upload_each_stdout _ _ _ _ _ _ _ _ Hup).
  rewrite (keeps_default_file_step_stdout _ _ _ _ H2).
  exact (keeps_resolve_folders_stdout _ _ _ _ H1).
Qed.

(** C7: a record without a link.  When the invitation comes back with at
    least one permission record and the first one has no [link] (or its
    [link] has no [webUrl]), [grant_folder_access] returns the placeholder
    text and the script ends with exit code 0, the placeholder standing in
    [invite_link] of the success record; when the first record has a web URL,
    that URL is what is returned and reported. *)
Theorem missing_link_degrades args w hdrs subfolder_id w2 ups w3 fields ps :
  reaches_uploads args w hdrs subfolder_id w2 ->
  upload_each hdrs subfolder_id (length (files_to_upload args))
    (files_to_upload args) [] w2 = (Ret ups, w3) ->
  invite_answer hdrs subfolder_id (recipients args) (subfolder args) w3
    (JArr (JObj fields :: ps)) ->
  let reports link :=
    exists w4 w',
      grant_folder_access hdrs subfolder_id (recipients args) (subfolder args) w3
        = (Ret link, w4)
      /\ script args w = (Some 0, w')
      /\ stdout w' = stdout w ++
           [JObj [("status", JStr "success");
                  ("base_folder", JStr "GlycoShield");
                  ("sub_folder", JStr (subfolder args));
                  ("sub_folder_id", subfolder_id);
                  ("files_uploaded", JArr (map JStr (files_to_upload args)));
                  ("shared_with", JArr (map JStr (recipients args)));
                  ("invite_link", link)]] in
  let placeholder :=
    JStr ("Access granted to item " +:+ py_str subfolder_id
          +:+ " (no direct link returned)") in
  (dict_lookup "link" fields = None -> reports placeholder)
  /\ (forall lf, dict_lookup "link" fields = Some (JObj lf) ->
                 dict_lookup "webUrl" lf = None -> reports placeholder)
  /\ (forall lf u, dict_lookup "link" fields = Some (JObj lf) ->
                   dict_lookup "webUrl" lf = Some u -> truthy u = true -> reports u).
Proof.
  intros Hreach Hup Hans reports placeholder.
  pose proof (grant_answered _ _ _ _ _ _ Hans) as Hgrant.
  cbn [truthy negb py_first] in Hgrant.
  unfold bind at 1, lift at 1 in Hgrant.
  assert (Hrep : forall link w4,
            grant_folder_access hdrs subfolder_id (recipients args) (subfolder args) w3
              = (Ret link, w4) -> reports link).
  { intros link w4 Hg.
    destruct (script_after_grant _ _ _ _ _ _ _ _ _ Hreach Hup Hg) as (w' & Hs & Ho & _).
    exists w4, w'. split; [exact Hg|]. split; [exact Hs|exact Ho]. }
  split; [|split].
  - intros Hl. eapply Hrep. rewrite Hgrant. unfold py_get at 1. rewrite Hl.
    reflexivity.
  - intros lf Hl Hu. eapply Hrep. rewrite Hgrant. unfold py_get at 1. rewrite Hl.
    unfold bind at 1, lift at 1. unfold bind at 1, lift at 1, py_get. rewrite Hu.
    reflexivity.
  - intros lf u Hl Hu Ht. eapply Hrep. rewrite Hgrant. unfold py_get at 1. rewrite Hl.
    unfold bind at 1, lift at 1. unfold bind at 1, lift at 1, py_get. rewrite Hu, Ht.
    reflexivity.
Qed.

(** ** The default file *)

Lemma single_window cs ws data :
  tiled 0 ws -> full_but_last cs ws -> window_bytes ws = data ->
  0 < len data <= cs -> ws = [(0, data)].
Proof.
  intros Ht Hfull Hb Hlen. destruct ws as [|[s c] rest].
  - unfold window_bytes in Hb. cbn [map concat] in Hb. subst data.
    unfold len in Hlen. simpl in Hlen. lia.
  - destruct Ht as [Hs _]. cbn [fst] in Hs. subst s.
    destruct Hfull as (Hc & Hnext & Hrest). cbn [snd] in Hc, Hnext.
    destruct rest as [|y rest'].
    + unfold window_bytes in Hb. cbn [map concat snd] in Hb.
      rewrite app_nil_r in Hb. now subst c.
    + exfalso. specialize (Hnext ltac:(discriminate)).
      destruct Hrest as (Hy & _).
      assert (Hsum : len data = len c + len (snd y) + len (window_bytes rest')).
      { rewrite <- Hb. unfold window_bytes. cbn [map concat snd].
        rewrite !len_app. lia. }
      pose proof (len_nonneg (window_bytes rest')). lia.
Qed.

Lemma grant_sent hdrs item_id email_list sub_folder_name w r w' :
  grant_folder_access hdrs item_id email_list sub_folder_name w = (r, w') ->
  sent w' = invite_request hdrs item_id email_list sub_folder_name :: sent w.
Proof.
  unfold grant_folder_access, bind at 1. unfold log at 1. unfold bind at 1, http.
  cbn [sent disk stdout stderr].
  destruct (server _) as [rs|]; [|now intros [= <- <-]].
  match goal with
  | |- ?k ?w0 = _ -> _ =>
      assert (Hk : keeps sent k) by keeps_tac;
      intros Hrun; exact (Hk _ _ _ Hrun)
  end.
Qed.

Lemma default_file_step_creates args w1 :
  files_to_upload args = ["test_upload.txt"] ->
  disk w1 !! "test_upload.txt" = None ->
  exists w2,
    default_file_step args w1 = (Ret tt, w2)
    /\ disk w2 = <["test_upload.txt" := dummy_bytes]> (disk w1)
    /\ sent w2 = sent w1.
Proof.
  intros Hfiles Hnone. unfold default_file_step, bind at 1, os_path_exists.
  rewrite Hnone, Hfiles. cbn. eexists. split; [reflexivity|]. split; reflexivity.
Qed.

(** C9: the default file.  Whenever the file list is just [test_upload.txt]
    (as it is without a file-list override, whatever the subfolder and the
    added recipients) and that file is not on disk, once the folders are
    resolved [main] writes the dummy file before the upload, so the upload
    does not fail on a missing file; and when the run succeeds the file is on
    disk with the dummy text, its bytes went out in one chunk write after its
    upload session was opened, the script ends with exit code 0, and
    [files_uploaded] lists it. *)
Theorem default_file_synthesized args w :
  files_to_upload args = ["test_upload.txt"] ->
  disk w !! "test_upload.txt" = None ->
  (forall hdrs subfolder_id w1,
     resolve_folders args w = (Ret (hdrs, subfolder_id), w1) ->
     exists w2,
       default_file_step args w1 = (Ret tt, w2)
       /\ disk w2 !! "test_upload.txt"
          = Some (list_byte_of_string "This is a test upload file.")
       /\ sent w2 = sent w1
       /\ forall msg,
            fst (upload_each hdrs subfolder_id 1 ["test_upload.txt"] [] w2)
              <> Raise (FileNotFoundError msg))
  /\ (forall out w',
        main args w = (Ret out, w') ->
        disk w' !! "test_upload.txt"
          = Some (list_byte_of_string "This is a test upload file.")
        /\ (exists subfolder_id share_link,
              out = JObj [("status", JStr "success");
                          ("base_folder", JStr "GlycoShield");
                          ("sub_folder", JStr (subfolder args));
                          ("sub_folder_id", subfolder_id);
                          ("files_uploaded", JArr [JStr "test_upload.txt"]);
                          ("shared_with",
                           JArr (map JStr ("simbiosyslab.neu@gmail.com"
                                           :: new_emails args)));
                          ("invite_link", share_link)])
        /\ (exists hdrs subfolder_id upload_url w1,
              resolve_folders args w = (Ret (hdrs, subfolder_id), w1)
              /\ sent w' =
                   invite_request hdrs subfolder_id
                     ("simbiosyslab.neu@gmail.com" :: new_emails args) (subfolder args)
                   :: mkRequest PUT (py_str upload_url)
                        [("Content-Length", "27");
                         ("Content-Range", "bytes 0-26/27")]
                        [] (Raw (list_byte_of_string "This is a test upload file."))
                   :: session_request hdrs subfolder_id "test_upload.txt"
                   :: sent w1)
        /\ exists w'', script args w = (Some 0, w'')
                       /\ stdout w'' = stdout w ++ [out]).
Proof.
  intros Hfiles Hnone.
  assert (Hstep : forall hdrs sid w1,
            resolve_folders args w = (Ret (hdrs, sid), w1) ->
            exists w2, default_file_step args w1 = (Ret tt, w2)
                       /\ disk w2 !! "test_upload.txt" = Some dummy_bytes
                       /\ sent w2 = sent w1).
  { intros hdrs sid w1 H1.
    destruct (default_file_step_creates args w1 Hfiles) as (w2 & H2 & Hd & Hs).
    { rewrite (keeps_resolve_folders_disk _ _ _ _ H1). exact Hnone. }
    exists w2. split; [exact H2|]. split; [|exact Hs].
    rewrite Hd. apply lookup_insert_eq. }
  split.
  - intros hdrs sid w1 H1. destruct (Hstep _ _ _ H1) as (w2 & H2 & Hd & Hs).
    exists w2. split; [exact H2|]. split; [exact Hd|]. split; [exact Hs|].
    intros msg. rewrite upload_each_head.
    destruct (upload_file_windows hdrs sid "test_upload.txt" dummy_bytes
                (logged w2 (progress_line [] 1 "test_upload.txt")) Hd)
      as (u & ws & r & w3 & Hrun & _ & _ & _ & _ & _ & _ & _ & Hexn & _).
    unfold bind at 1. rewrite Hrun. destruct r as [[]|e|]; cbn; try discriminate.
    intros [= ->]. exact (Hexn _ eq_refl).
  - intros out w' Hmain.
    destruct (resolve_folders args w) as [[[hdrs sid]|e|] w1] eqn:H1;
      try (unfold main in Hmain; rewrite (bind_raise _ _ _ _ _ H1) in Hmain;
           discriminate);
      try (unfold main, bind in Hmain; rewrite H1 in Hmain; discriminate).
    destruct (Hstep _ _ _ eq_refl) as (w2 & H2 & Hd & Hs).
    assert (Hreach : reaches_uploads args w hdrs sid w2)
      by (exists w1; split; assumption).
    assert (Hshape : main args w =
      (successfully_uploaded_files <-
         upload_each hdrs sid 1 ["test_upload.txt"] [] ;;
       share_link <- grant_folder_access hdrs sid
                       (DEFAULT_RECIPIENT_EMAILS ++ new_emails args) (subfolder args) ;;
       log ("Direct access granted. Invite link: " +:+ py_str share_link) ;;;
       ret (success_record (subfolder args) sid successfully_uploaded_files
              (DEFAULT_RECIPIENT_EMAILS ++ new_emails args) share_link)) w2).
    { rewrite (main_after_setup _ _ _ _ _ Hreach), Hfiles. reflexivity. }
    rewrite Hshape in Hmain.
    unfold bind at 1 in Hmain. rewrite upload_each_head in Hmain.
    destruct (upload_file_windows hdrs sid "test_upload.txt" dummy_bytes
                (logged w2 (progress_line [] 1 "test_upload.txt")) Hd)
      as (u & ws & r & w3 & Hrun & _ & Hw & Hd3 & Ho3 & Ht & Hfull
          & (rest & Hrest & Hall) & _ & _).
    unfold bind at 1 in Hmain. rewrite Hrun in Hmain.
    destruct r as [[]|e|]; try discriminate.
    rewrite (Hall eq_refl), app_nil_r in Hrest. symmetry in Hrest.
    assert (Hlen : 0 < len dummy_bytes <= CHUNK_SIZE)
      by (vm_compute; split; [reflexivity|discriminate]).
    pose proof (single_window CHUNK_SIZE ws dummy_bytes Ht Hfull Hrest Hlen) as ->.
    unfold wrote in Hw. cbn [map rev app window_request fst snd logged sent] in Hw.
    cbn [upload_each ret app] in Hmain.
    unfold bind at 1 in Hmain.
    destruct (grant_folder_access hdrs sid _ _ w3) as [[link|e|] w4] eqn:Hg;
      try discriminate.
    pose proof (grant_sent _ _ _ _ _ _ _ Hg) as Hs4.
    pose proof (keeps_grant_disk _ _ _ _ _ _ _ Hg) as Hd4.
    unfold bind at 1, log, ret in Hmain. injection Hmain as <- <-.
    cbn [disk sent].
    split; [rewrite Hd4, Hd3; exact Hd|].
    split; [exists sid, link; reflexivity|].
    split.
    { exists hdrs, sid, u, w1. split; [reflexivity|].
      rewrite Hs4, Hw, Hs. reflexivity. }
    eexists. split.
    + apply script_success. rewrite Hshape.
      unfold bind at 1. rewrite upload_each_head. unfold bind at 1. rewrite Hrun.
      cbn [upload_each ret app]. unfold bind at 1. rewrite Hg. reflexivity.
    + cbn [stdout]. f_equal.
      rewrite (keeps_grant_stdout _ _ _ _ _ _ _ Hg), Ho3. cbn [logged stdout].
      rewrite (keeps_default_file_step_stdout _ _ _ _ H2).
      exact (keeps_resolve_folders_stdout _ _ _ _ H1).
Qed.

(** ** Folder resolution *)

(** On a well-formed listing the loop of [get_or_create_folder] computes the
    first match. *)
Lemma scan_items_first items folder_name :
  Forall drive_item items ->
  scan_items items folder_name = Ret (first_folder_match items folder_name).
Proof.
  induction 1 as [|item rest (kv & n & i & -> & Hn & Hi) _ IH]; [reflexivity|].
  cbn [scan_items]. unfold first_folder_match in *. cbn [List.find is_folder_match].
  unfold py_getitem at 1. rewrite Hn. cbn [obind py_lower_of py_in].
  destruct (String.eqb (py_lower n) (py_lower folder_name)).
  - destruct (dict_lookup "folder" kv); cbn [obind].
    + unfold py_getitem. rewrite Hi. reflexivity.
    + exact IH.
  - destruct (dict_lookup "folder" kv); exact IH.
Qed.

(** [get_or_create_folder] once its listing is in: the scan decides. *)
Lemma get_or_create_folder_listed hdrs parent_id folder_name w items :
  listing hdrs parent_id folder_name (sent w) items ->
  get_or_create_folder hdrs parent_id folder_name w =
    let w1 := mkWorld (disk w) (find_request hdrs parent_id folder_name :: sent w)
                (stdout w)
                (stderr w ++ ["Checking for folder '" +:+ folder_name
                              +:+ "' in parent '" +:+ py_str parent_id +:+ "'..."]) in
    match first_folder_match items folder_name with
    | Some i =>
        (Ret i, logged w1 ("Folder '" +:+ folder_name +:+ "' found. ID: " +:+ py_str i))
    | None =>
        (r_create <- http (create_request hdrs parent_id folder_name) ;;
         if negb (ok r_create) then
           raise (SystemExit ("Failed to create folder: "
                              +:+ str_of_Z (status_code r_create)
                              +:+ nl +:+ text r_create))
         else
           j' <- resp_json r_create ;;
           new_folder_id <- lift (py_getitem j' "id") ;;
           log ("Folder '" +:+ folder_name +:+ "' created. ID: "
                +:+ py_str new_folder_id) ;;;
           ret new_folder_id)
          (logged w1 ("Folder '" +:+ folder_name +:+ "' not found. Creating..."))
    end.
Proof.
  intros (rs & j & Hsrv & Hok & Hj & Hv & Hwf).
  unfold get_or_create_folder, bind at 1. unfold log at 1. unfold bind at 1, http.
  cbn [sent disk stdout stderr]. rewrite Hsrv.
  unfold bind at 1, raise_for_status. rewrite Hok. unfold ret at 1.
  unfold bind at 1, resp_json. rewrite Hj. unfold ret at 1.
  unfold bind at 1, lift at 1. rewrite Hv.
  unfold bind at 1, lift at 1. cbn [py_iter].
  unfold bind at 1, lift at 1. rewrite (scan_items_first _ _ Hwf). cbv zeta.
  destruct (first_folder_match items folder_name); reflexivity.
Qed.




(** ** What reaches standard output *)

Lemma main_returns_success args w out w' :
  main args w = (Ret out, w') ->
  exists subfolder_id ups share_link,
    out = success_record (subfolder args) subfolder_id ups (recipients args) share_link.
Proof.
  unfold main. unfold bind at 1.
  destruct (resolve_folders args w) as [[[hdrs sid]|e|] w1]; try discriminate.
  unfold bind at 1.
  destruct (default_file_step args w1) as [[[]|e|] w2]; try discriminate.
  unfold bind at 1.
  destruct (upload_each hdrs sid _ _ _ w2) as [[ups|e|] w3]; try discriminate.
  unfold bind at 1.
  destruct (grant_folder_access hdrs sid _ _ w3) as [[link|e|] w4]; try discriminate.
  intros [= <- _]. exists sid, ups, link. reflexivity.
Qed.

(** X1: one record at most.  In a run whose command line parsed, the guard
    prints at most one record on standard output, a success with exit code 0
    or a failure with exit code 1, and the rest of [main] prints nothing
    there; no record is printed only when [main] ends on one of its own
    [SystemExit]s (exit code 1) or does not end. *)
Lemma script_output_shape args w code w' :
  script args w = (code, w') ->
  (stdout w' = stdout w
   /\ (code = None
       \/ exists msg w1, main args w = (Raise (SystemExit msg), w1) /\ code = Some 1))
  \/ (exists fields,
        stdout w' = stdout w ++ [JObj fields]
        /\ ((dict_lookup "status" fields = Some (JStr "success") /\ code = Some 0)
            \/ (dict_lookup "status" fields = Some (JStr "failure") /\ code = Some 1))).
Proof.
  intros Hrun. destruct (main args w) as [[out|e|] w1] eqn:Hmain.
  - rewrite (script_success _ _ _ _ Hmain) in Hrun. injection Hrun as <- <-.
    destruct (main_returns_success _ _ _ _ Hmain) as (sid & ups & link & ->).
    right. eexists. split.
    + cbn [stdout]. rewrite (keeps_main_stdout _ _ _ _ Hmain). reflexivity.
    + left. split; reflexivity.
  - destruct (is_Exception e) eqn:He.
    + rewrite (script_failure _ _ _ _ Hmain He) in Hrun. injection Hrun as <- <-.
      right. eexists. split.
      * cbn [after_failure stdout]. rewrite (keeps_main_stdout _ _ _ _ Hmain).
        reflexivity.
      * right. split; reflexivity.
    + destruct e; try discriminate.
      rewrite (script_system_exit _ _ _ _ Hmain) in Hrun. injection Hrun as <- <-.
      left. split.
      * cbn [stdout]. exact (keeps_main_stdout _ _ _ _ Hmain).
      * right. exists msg, w1. split; reflexivity.
  - unfold script in Hrun. rewrite Hmain in Hrun. injection Hrun as <- <-.
    left. split; [exact (keeps_main_stdout _ _ _ _ Hmain)|now left].
Qed.

(** A token request that is turned down ends the script on [SystemExit]:
    exit code 1 and nothing on standard output. *)
Lemma token_rejected_exits args w rs :
  server (token_request :: sent w) = Resp rs -> ok rs = false ->
  exists w', script args w = (Some 1, w') /\ stdout w' = stdout w.
Proof.
  intros Hsrv Hok.
  assert (Hmain : exists w1,
            main args w = (Raise (SystemExit ("Token request failed: "
                                              +:+ str_of_Z (status_code rs)
                                              +:+ nl +:+ text rs)), w1)).
  { unfold main, resolve_folders. eexists. apply bind_raise.
    unfold bind at 1. unfold log at 1. unfold bind at 1. unfold log at 1.
    unfold bind at 1. unfold log at 1. unfold bind at 1. unfold log at 1.
    apply bind_raise. unfold get_access_token, bind at 1. unfold log at 1.
    unfold bind at 1, http. cbn [sent disk stdout stderr].
    fold token_request. rewrite Hsrv, Hok. reflexivity. }
  destruct Hmain as (w1 & Hmain). eexists. split.
  - exact (script_system_exit _ _ _ _ Hmain).
  - cbn [stdout]. exact (keeps_main_stdout _ _ _ _ Hmain).
Qed.

(** So does a folder creation that is turned down. *)
Lemma create_rejected_exits hdrs parent_id folder_name w items rc :
  listing hdrs parent_id folder_name (sent w) items ->
  first_folder_match items folder_name = None ->
  server (create_request hdrs parent_id folder_name
          :: find_request hdrs parent_id folder_name :: sent w) = Resp rc ->
  ok rc = false ->
  exists w',
    get_or_create_folder hdrs parent_id folder_name w =
      (Raise (SystemExit ("Failed to create folder: " +:+ str_of_Z (status_code rc)
                          +:+ nl +:+ text rc)), w').
Proof.
  intros Hl Hm Hsrv Hok.
  rewrite (get_or_create_folder_listed _ _ _ _ _ Hl), Hm. cbv zeta.
  unfold bind at 1, http. cbn [sent disk stdout stderr logged].
  rewrite Hsrv, Hok. eexists. reflexivity.
Qed.

Lemma system_exit_prints_nothing args w msg w1 :
  main args w = (Raise (SystemExit msg), w1) ->
  exists w', script args w = (Some 1, w') /\ stdout w' = stdout w.
Proof.
  intros Hmain. eexists. split; [exact (script_system_exit _ _ _ _ Hmain)|].
  cbn [stdout]. exact (keeps_main_stdout _ _ _ _ Hmain).
Qed.

(** ** The script always ends *)

Lemma total_bind {A B} (m : M A) (k : A -> M B) :
  total m -> (forall a, total (k a)) -> total (bind m k).
Proof.
  intros Hm Hk w. unfold bind. specialize (Hm w).
  destruct (m w) as [[a|e|] w1]; cbn [fst] in *; [apply Hk|discriminate|congruence].
Qed.

Lemma total_ret {A} (a : A) : total (ret a).
Proof. intros w. discriminate. Qed.

Lemma total_raise {A} e : total (@raise A e).
Proof. intros w. discriminate. Qed.

Lemma total_log s : total (log s).
Proof. intros w. discriminate. Qed.

Lemma total_http rq : total (http rq).
Proof. intros w. unfold http. destruct (server _); discriminate. Qed.

Lemma total_lift {A} (o : outcome A) : o <> Diverge -> total (lift o).
Proof. intros H w. exact H. Qed.

Lemma total_exists p : total (os_path_exists p).
Proof. intros w. discriminate. Qed.

Lemma total_write p s : total (write_text p s).
Proof. intros w. discriminate. Qed.

Lemma total_raise_for_status r : total (raise_for_status r).
Proof. unfold raise_for_status. destruct (ok r); [apply total_ret|apply total_raise]. Qed.

Lemma total_resp_json r : total (resp_json r).
Proof. unfold resp_json. destruct (json_body r); [apply total_ret|apply total_raise]. Qed.

Lemma py_getitem_ends v k : py_getitem v k <> Diverge.
Proof. unfold py_getitem. destruct v; try discriminate. destruct (dict_lookup k fields); discriminate. Qed.

Lemma py_get_ends v k d : py_get v k d <> Diverge.
Proof. unfold py_get. destruct v; try discriminate. destruct (dict_lookup k fields); discriminate. Qed.

Lemma py_first_ends v : py_first v <> Diverge.
Proof. destruct v as [| | |[|c s]|[|x l]|]; discriminate. Qed.

Lemma py_iter_ends v : py_iter v <> Diverge.
Proof. destruct v; discriminate. Qed.

Lemma scan_items_ends items folder_name : scan_items items folder_name <> Diverge.
Proof.
  induction items as [|item rest IH]; [discriminate|]. cbn [scan_items].
  destruct (py_getitem item "name") as [name| |] eqn:Hn; cbn [obind];
    [|discriminate|now apply py_getitem_ends in Hn].
  destruct name; cbn [py_lower_of obind]; try discriminate.
  destruct (String.eqb _ _); [|exact IH].
  destruct item; cbn [py_in obind]; try discriminate.
  destruct (dict_lookup "folder" fields); [|exact IH].
  destruct (py_getitem (JObj fields) "id") as [i| |] eqn:Hi; cbn [obind];
    [discriminate|discriminate|now apply py_getitem_ends in Hi].
Qed.

#[local] Hint Resolve total_ret total_raise total_log total_http total_exists
  total_write total_raise_for_status total_resp_json total_lift py_getitem_ends
  py_get_ends py_first_ends py_iter_ends scan_items_ends : stage.

Ltac total_step :=
  match goal with
  | |- total (bind _ _) => apply total_bind; [|intros ?]
  | |- total (if ?b then _ else _) => destruct b
  | |- total (match ?x with _ => _ end) => destruct x
  | |- total _ => solve [auto with stage]
  end.

Ltac total_tac := repeat total_step.

Lemma total_get_access_token : total get_access_token.
Proof. unfold get_access_token. total_tac. Qed.

Lemma total_get_or_create_folder hdrs p n : total (get_or_create_folder hdrs p n).
Proof. unfold get_or_create_folder. total_tac. Qed.

Lemma total_grant hdrs i l n : total (grant_folder_access hdrs i l n).
Proof. unfold grant_folder_access. total_tac. Qed.

(** The fuel [upload_file] gives its loop never runs out. *)
Lemma total_upload_file hdrs p path : total (upload_file hdrs p path).
Proof.
  intros w. destruct (disk w !! path) as [data|] eqn:Hd.
  - destruct (upload_file_windows hdrs p path data w Hd)
      as (u & ws & r & w' & Hrun & Hnd & _).
    rewrite Hrun. exact Hnd.
  - rewrite upload_file_missing by exact Hd. discriminate.
Qed.

#[local] Hint Resolve total_get_access_token total_get_or_create_folder total_grant
  total_upload_file : stage.

Lemma total_upload_each hdrs sid n files acc : total (upload_each hdrs sid n files acc).
Proof.
  revert acc. induction files as [|p rest IH]; intros acc; cbn [upload_each].
  - auto with stage.
  - total_tac; try apply IH.
Qed.

#[local] Hint Resolve total_upload_each : stage.

Lemma total_main args : total (main args).
Proof. unfold main, resolve_folders, default_file_step. total_tac. Qed.

(** The script ends with an exit code on every input. *)
Lemma script_terminates args w : fst (script args w) <> None.
Proof.
  unfold script. pose proof (total_main args w) as H.
  destruct (main args w) as [[out|e|] w1]; cbn [fst] in *.
  - discriminate.
  - destruct (is_Exception e); discriminate.
  - congruence.
Qed.

(** ** The trace only grows *)

Lemma grows_of_keeps {A} (m : M A) : keeps sent m -> grows m.
Proof. intros H w r w' Hrun. exists []. exact (H _ _ _ Hrun). Qed.

Lemma grows_bind {A B} (m : M A) (k : A -> M B) :
  grows m -> (forall a, grows (k a)) -> grows (bind m k).
Proof.
  intros Hm Hk w r w' Hrun. unfold bind in Hrun.
  destruct (m w) as [[a|e|] w1] eqn:E.
  - destruct (Hk a _ _ _ Hrun) as (n2 & H2). destruct (Hm _ _ _ E) as (n1 & H1).
    exists (n2 ++ n1). rewrite H2, H1. now rewrite app_assoc.
  - injection Hrun as <- <-. exact (Hm _ _ _ E).
  - injection Hrun as <- <-. exact (Hm _ _ _ E).
Qed.

Lemma grows_http rq : grows (http rq).
Proof.
  intros w r w' H. unfold http in H. exists [rq].
  destruct (server _); now injection H as <- <-.
Qed.

Lemma grows_ret {A} (a : A) : grows (ret a).
Proof. apply grows_of_keeps, keeps_ret. Qed.

Lemma grows_raise {A} e : grows (@raise A e).
Proof. apply grows_of_keeps, keeps_raise. Qed.

Lemma grows_lift {A} (o : outcome A) : grows (lift o).
Proof. apply grows_of_keeps, keeps_lift. Qed.

Lemma grows_log s : grows (log s).
Proof. apply grows_of_keeps, keeps_log_sent. Qed.

Lemma grows_exists p : grows (os_path_exists p).
Proof. apply grows_of_keeps, keeps_exists. Qed.

Lemma grows_read_file p : grows (read_file p).
Proof. apply grows_of_keeps, keeps_read_file. Qed.

Lemma grows_write p s : grows (write_text p s).
Proof. apply grows_of_keeps, keeps_write_sent. Qed.

Lemma grows_raise_for_status r : grows (raise_for_status r).
Proof. apply grows_of_keeps, keeps_raise_for_status. Qed.

Lemma grows_resp_json r : grows (resp_json r).
Proof. apply grows_of_keeps, keeps_resp_json. Qed.

#[local] Hint Resolve grows_http grows_ret grows_raise grows_lift grows_log
  grows_exists grows_read_file grows_write grows_raise_for_status
  grows_resp_json : stage.

Ltac grows_step :=
  match goal with
  | |- grows (bind _ _) => apply grows_bind; [|intros ?]
  | |- grows (if ?b then _ else _) => destruct b
  | |- grows (match ?x with _ => _ end) => destruct x
  | |- grows _ => solve [auto with stage]
  end.

Ltac grows_tac := repeat grows_step.

Lemma grows_get_or_create_folder hdrs p n : grows (get_or_create_folder hdrs p n).
Proof. unfold get_or_create_folder. grows_tac. Qed.

Lemma grows_grant hdrs i l n : grows (grant_folder_access hdrs i l n).
Proof. unfold grant_folder_access. grows_tac. Qed.

Lemma grows_upload_loop fuel cs u fs f start :
  grows (upload_loop fuel cs u fs f start).
Proof.
  revert f start. induction fuel as [|fuel IH]; intros f start; cbn [upload_loop].
  - auto with stage.
  - destruct (start <? fs); [|auto with stage].
    destruct (f_read cs f) as [chunk f']. grows_tac; try apply IH.
Qed.

#[local] Hint Resolve grows_get_or_create_folder grows_grant grows_upload_loop : stage.

Lemma grows_upload_file hdrs p path : grows (upload_file hdrs p path).
Proof. unfold upload_file. grows_tac. Qed.

#[local] Hint Resolve grows_upload_file : stage.

Lemma grows_upload_each hdrs sid n files acc :
  grows (upload_each hdrs sid n files acc).
Proof.
  revert acc. induction files as [|p rest IH]; intros acc; cbn [upload_each].
  - auto with stage.
  - grows_tac; try apply IH.
Qed.

#[local] Hint Resolve grows_upload_each : stage.

(** ** The token request *)


(** [main] is what it does with the answer to its token request, which is
    the first thing it sends. *)
Lemma main_token_step args w :
  main args w =
    main_from_token args (server (token_request :: sent w)) (after_token args w).
Proof.
  unfold main, main_from_token, resolve_folders, get_access_token, bind, log, http,
    ret, raise, after_token, announced, token_request, recipients.
  cbn [sent disk stdout stderr].
  destruct (server _) as [rs|]; [|reflexivity].
  destruct (ok rs); cbn [negb]; [|reflexivity].
  unfold resp_json. destruct (json_body rs) as [j|]; [|reflexivity].
  unfold ret, lift. destruct (py_getitem j "access_token"); reflexivity.
Qed.

Lemma grows_main_from_token args answer : grows (main_from_token args answer).
Proof. unfold main_from_token, default_file_step. grows_tac. Qed.

Lemma script_sent args w : sent (snd (script args w)) = sent (snd (main args w)).
Proof.
  unfold script. destruct (main args w) as [[out|e|] w1]; [reflexivity| |reflexivity].
  destruct (is_Exception e); reflexivity.
Qed.

Lemma script_disk args w : disk (snd (script args w)) = disk (snd (main args w)).
Proof.
  unfold script. destruct (main args w) as [[out|e|] w1]; [reflexivity| |reflexivity].
  destruct (is_Exception e); reflexivity.
Qed.

(** X2: the token comes first.  In every run the first request sent is the
    token request, and when it is turned down or does not get through it is
    the only one: nothing is asked of the drive without a token. *)
Theorem token_request_first args w code w' :
  script args w = (code, w') ->
  exists later,
    sent w' = later ++ token_request :: sent w
    /\ (forall rs, server (token_request :: sent w) = Resp rs -> ok rs = false ->
          later = [])
    /\ (server (token_request :: sent w) = NetErr -> later = []).
Proof.
  intros Hrun.
  assert (Hs : sent w' = sent (snd (main args w)))
    by (rewrite <- script_sent, Hrun; reflexivity).
  rewrite main_token_step in Hs.
  destruct (main_from_token args (server (token_request :: sent w))
              (after_token args w)) as [r w1] eqn:Hmain.
  destruct (grows_main_from_token _ _ _ _ _ Hmain) as (later & Hlater).
  cbn [snd] in Hs. cbn [after_token sent] in Hlater.
  exists later. split; [now rewrite Hs|].
  assert (Hnil : sent w1 = token_request :: sent w -> later = []).
  { intros H. rewrite H in Hlater. apply (app_inv_tail (token_request :: sent w)).
    now rewrite <- Hlater. }
  split.
  - intros rs Hsrv Hok. apply Hnil. rewrite Hsrv in Hmain.
    unfold main_from_token, bind, raise in Hmain. rewrite Hok in Hmain.
    cbn [negb] in Hmain. now injection Hmain as _ <-.
  - intros Hsrv. apply Hnil. rewrite Hsrv in Hmain.
    unfold main_from_token, bind, raise in Hmain. now injection Hmain as _ <-.
Qed.

(** X3: a token reply without the token.  When the token request comes back
    as a success whose body has no [access_token], the lookup raises
    [KeyError]; unlike a turned-down token request this is reported: exit
    code 1, the failure record alone on standard output, and no further
    request. *)
Theorem token_key_missing_reported args w rs fields :
  server (token_request :: sent w) = Resp rs ->
  ok rs = true ->
  json_body rs = Some (JObj fields) ->
  dict_lookup "access_token" fields = None ->
  exists w',
    script args w = (Some 1, w')
    /\ stdout w' = stdout w ++ [failure_record (lib_str (KeyError "access_token"))]
    /\ sent w' = token_request :: sent w.
Proof.
  intros Hsrv Hok Hj Hk.
  assert (Hmain : main args w =
            (Raise (LibError (KeyError "access_token")), after_token args w)).
  { rewrite main_token_step, Hsrv. unfold main_from_token, bind at 1.
    rewrite Hok. cbn [negb]. unfold bind at 1, resp_json. rewrite Hj.
    unfold ret at 1. unfold bind at 1, lift at 1, py_getitem. rewrite Hk.
    reflexivity. }
  eexists. split; [exact (script_failure _ _ _ _ Hmain eq_refl)|].
  split; reflexivity.
Qed.

(** X4: a token request that does not get through.  When [requests] raises
    on the token request (no connection), the exception is an [Exception]:
    the script reports it with a failure record and exit code 1, where an
    HTTP refusal of the same request prints nothing. *)
Theorem token_network_error_reported args w :
  server (token_request :: sent w) = NetErr ->
  exists w',
    script args w = (Some 1, w')
    /\ stdout w' = stdout w ++ [failure_record (lib_str RequestException)]
    /\ sent w' = token_request :: sent w.
Proof.
  intros Hsrv.
  assert (Hmain : main args w =
            (Raise (LibError RequestException), after_token args w)).
  { rewrite main_token_step, Hsrv. reflexivity. }
  eexists. split; [exact (script_failure _ _ _ _ Hmain eq_refl)|].
  split; reflexivity.
Qed.

(** ** The local disk *)

(** X5: the disk.  A run leaves the local disk as it found it, except that
    it adds [test_upload.txt] with the dummy text when the file list is
    exactly that file and the file is absent; no file that was on disk is
    changed or removed. *)
Theorem script_disk_untouched args w code w' :
  script args w = (code, w') ->
  (disk w' = disk w
   \/ (files_to_upload args = ["test_upload.txt"]
       /\ disk w !! "test_upload.txt" = None
       /\ disk w' = <["test_upload.txt" := dummy_bytes]> (disk w)))
  /\ forall path data, disk w !! path = Some data -> disk w' !! path = Some data.
Proof.
  intros Hrun.
  assert (Hd : disk w' = disk (snd (main args w)))
    by (rewrite <- script_disk, Hrun; reflexivity).
  assert (Hcases : disk w' = disk w
     \/ (files_to_upload args = ["test_upload.txt"]
         /\ disk w !! "test_upload.txt" = None
         /\ disk w' = <["test_upload.txt" := dummy_bytes]> (disk w))).
  { rewrite Hd. clear Hd Hrun.
    destruct (main args w) as [r w4] eqn:Hmain. cbn [snd].
    unfold main in Hmain. unfold bind at 1 in Hmain.
    destruct (resolve_folders args w) as [[[hdrs sid]|e|] w1] eqn:H1;
      try (injection Hmain as _ <-; left;
           exact (keeps_resolve_folders_disk _ _ _ _ H1)).
    pose proof (keeps_resolve_folders_disk _ _ _ _ H1) as Hd1.
    unfold bind at 1 in Hmain.
    destruct (default_file_step args w1) as [r2 w2] eqn:H2.
    assert (Hstep : disk w2 = disk w1
       \/ (files_to_upload args = ["test_upload.txt"]
           /\ disk w1 !! "test_upload.txt" = None
           /\ disk w2 = <["test_upload.txt" := dummy_bytes]> (disk w1))).
    { unfold default_file_step, bind at 1, os_path_exists in H2.
      destruct (disk w1 !! "test_upload.txt") eqn:Hl.
      - rewrite andb_false_r in H2. injection H2 as _ <-. now left.
      - unfold string_list_eqb in H2.
        destruct (bool_decide_reflect (files_to_upload args = ["test_upload.txt"]))
          as [Heq|Hne]; cbn [andb negb] in H2.
        + unfold bind, log, write_text in H2. injection H2 as _ <-.
          right. split; [exact Heq|]. split; reflexivity.
        + injection H2 as _ <-. now left. }
    assert (Hd2 : disk w4 = disk w2).
    { destruct r2 as [[]|e|]; try (now injection Hmain as _ <-).
      revert Hmain.
      match goal with
      | |- ?k w2 = _ -> _ =>
          assert (Hk : keeps disk k) by keeps_tac;
          intros Hmain; exact (Hk _ _ _ Hmain)
      end. }
    rewrite Hd2, <- Hd1. exact Hstep. }
  split; [exact Hcases|].
  intros path data Hp. destruct Hcases as [->|(_ & Hnone & ->)]; [exact Hp|].
  rewrite lookup_insert_ne; [exact Hp|]. intros <-. congruence.
Qed.

(** ** More on folder resolution *)

(** X6: a listing that fails.  When the listing of the parent comes back
    with an error status, [get_or_create_folder] raises [HTTPError] with that
    status right after the listing request: it does not go on to create the
    folder.  [HTTPError] is an [Exception], so the guard reports it, where a
    creation that fails ends the run on [SystemExit]. *)
Theorem listing_failure_raises hdrs parent_id folder_name w rs :
  server (find_request hdrs parent_id folder_name :: sent w) = Resp rs ->
  ok rs = false ->
  exists w',
    get_or_create_folder hdrs parent_id folder_name w
      = (Raise (LibError (HTTPError (status_code rs))), w')
    /\ sent w' = find_request hdrs parent_id folder_name :: sent w
    /\ is_Exception (LibError (HTTPError (status_code rs))) = true.
Proof.
  intros Hsrv Hok.
  unfold get_or_create_folder, bind at 1. unfold log at 1. unfold bind at 1, http.
  cbn [sent disk stdout stderr]. rewrite Hsrv.
  unfold bind at 1, raise_for_status. rewrite Hok.
  eexists. split; [reflexivity|]. split; reflexivity.
Qed.

(** X7: a listing without [value].  When the listing comes back as a success
    whose body has no [value] (or an empty one), the folder counts as missing:
    the creation request, with the name, an empty [folder] facet and the
    conflict behaviour [rename], is the next request, and the [id] of its
    answer is returned. *)
Theorem listing_without_value_creates hdrs parent_id folder_name w rs fields rc jc i :
  server (find_request hdrs parent_id folder_name :: sent w) = Resp rs ->
  ok rs = true ->
  json_body rs = Some (JObj fields) ->
  dict_lookup "value" fields = None \/ dict_lookup "value" fields = Some (JArr []) ->
  server (create_request hdrs parent_id folder_name
          :: find_request hdrs parent_id folder_name :: sent w) = Resp rc ->
  ok rc = true -> json_body rc = Some jc -> py_getitem jc "id" = Ret i ->
  exists w',
    get_or_create_folder hdrs parent_id folder_name w = (Ret i, w')
    /\ sent w' = create_request hdrs parent_id folder_name
                 :: find_request hdrs parent_id folder_name :: sent w
    /\ body (create_request hdrs parent_id folder_name)
       = JsonBody (JObj [("name", JStr folder_name); ("folder", JObj []);
                         ("@microsoft.graph.conflictBehavior", JStr "rename")]).
Proof.
  intros Hsrv Hok Hj Hv Hsrc Hokc Hjc Hi.
  assert (Hl : listing hdrs parent_id folder_name (sent w) []).
  { exists rs, (JObj fields). split; [exact Hsrv|]. split; [exact Hok|].
    split; [exact Hj|]. split; [|constructor].
    unfold py_get. destruct Hv as [-> | ->]; reflexivity. }
  rewrite (get_or_create_folder_listed _ _ _ _ _ Hl). cbv zeta.
  cbn [first_folder_match List.find].
  unfold bind at 1, http. cbn [sent disk stdout stderr logged].
  rewrite Hsrc, Hokc. cbn [negb].
  unfold bind at 1, resp_json. rewrite Hjc. unfold ret at 1.
  unfold bind at 1, lift at 1. rewrite Hi.
  eexists. split; [reflexivity|]. split; reflexivity.
Qed.

(** X8: what the scan can return.  Whatever the listing holds, well formed
    or not, an identifier returned by the scan is the [id] of an item that is
    a folder and whose name is the wanted one up to case, and no item before
    it is such a match; when the scan runs to its end without raising, no
    item is a match. *)
Theorem scan_items_sound items folder_name found :
  scan_items items folder_name = Ret found ->
  match found with
  | Some i =>
      exists before item after,
        items = before ++ item :: after
        /\ is_folder_match folder_name item = true
        /\ py_getitem item "id" = Ret i
        /\ Forall (fun x => is_folder_match folder_name x = false) before
  | None => Forall (fun x => is_folder_match folder_name x = false) items
  end.
Proof.
  revert found. induction items as [|item rest IH]; intros found Hscan.
  - injection Hscan as <-. constructor.
  - cbn [scan_items] in Hscan.
    destruct item as [| | | |l|kv]; try discriminate.
    unfold py_getitem at 1 in Hscan.
    destruct (dict_lookup "name" kv) as [name|] eqn:Hn; [|discriminate].
    cbn [obind] in Hscan.
    destruct name as [| | |n| |]; try discriminate.
    cbn [py_lower_of obind py_in] in Hscan.
    assert (Hrec : forall found',
              scan_items rest folder_name = Ret found' ->
              is_folder_match folder_name (JObj kv) = false ->
              match found' with
              | Some i =>
                  exists before item after,
                    JObj kv :: rest = before ++ item :: after
                    /\ is_folder_match folder_name item = true
                    /\ py_getitem item "id" = Ret i
                    /\ Forall (fun x => is_folder_match folder_name x = false) before
              | None =>
                  Forall (fun x => is_folder_match folder_name x = false)
                    (JObj kv :: rest)
              end).
    { intros found' Hrest Hno. specialize (IH _ Hrest). destruct found' as [i|].
      - destruct IH as (before & it & after & -> & Hm & Hid & Hb).
        exists (JObj kv :: before), it, after.
        split; [reflexivity|]. split; [exact Hm|]. split; [exact Hid|].
        constructor; assumption.
      - constructor; assumption. }
    destruct (String.eqb (py_lower n) (py_lower folder_name)) eqn:He.
    + destruct (dict_lookup "folder" kv) as [fd|] eqn:Hf; cbn [obind] in Hscan.
      * destruct (py_getitem (JObj kv) "id") as [i| |] eqn:Hi; try discriminate.
        cbn [obind] in Hscan. injection Hscan as <-.
        exists [], (JObj kv), rest.
        split; [reflexivity|]. split; [|split; [exact Hi|constructor]].
        cbn [is_folder_match]. now rewrite Hn, Hf.
      * apply Hrec; [exact Hscan|]. cbn [is_folder_match]. now rewrite Hn, Hf.
    + apply Hrec; [exact Hscan|]. cbn [is_folder_match]. rewrite Hn.
      now destruct (dict_lookup "folder" kv).
Qed.

(** X9: an item without a name.  When the listing holds, before any match,
    an item that has no [name], the scan raises [KeyError] on it: the
    resolution fails instead of skipping the item or creating the folder. *)
Theorem scan_items_nameless before kv after folder_name :
  Forall (fun x => drive_item x /\ is_folder_match folder_name x = false) before ->
  dict_lookup "name" kv = None ->
  scan_items (before ++ JObj kv :: after) folder_name
    = Raise (LibError (KeyError "name")).
Proof.
  intros Hb Hn. induction Hb as [|x before [(kx & n & i & -> & Hxn & Hxi) Hno] _ IH].
  - cbn [app scan_items]. unfold py_getitem. rewrite Hn. reflexivity.
  - cbn [app scan_items]. unfold py_getitem at 1. rewrite Hxn.
    cbn [obind py_lower_of py_in]. cbn [is_folder_match] in Hno. rewrite Hxn in Hno.
    destruct (dict_lookup "folder" kx).
    + rewrite Hno. exact IH.
    + destruct (String.eqb _ _); exact IH.
Qed.

(** ** Headers *)

Lemma dict_lookup_set_eq {V} k (v : V) d : dict_lookup k (dict_set k v d) = Some v.
Proof.
  induction d as [|[k' v'] d IH]; cbn [dict_set dict_lookup].
  - now rewrite String.eqb_refl.
  - destruct (String.eqb k' k) eqn:E; cbn [dict_lookup]; rewrite ?String.eqb_refl, ?E;
      [reflexivity|exact IH].
Qed.

Lemma dict_lookup_set_ne {V} k k0 (v : V) d :
  k0 <> k -> dict_lookup k0 (dict_set k v d) = dict_lookup k0 d.
Proof.
  intros Hne. induction d as [|[k' v'] d IH]; cbn [dict_set dict_lookup].
  - destruct (String.eqb_spec k k0); [congruence|reflexivity].
  - destruct (String.eqb_spec k' k) as [->|Hk]; cbn [dict_lookup].
    + destruct (String.eqb_spec k k0); [congruence|reflexivity].
    + destruct (String.eqb k' k0); [reflexivity|exact IH].
Qed.

(** X10: merged headers.  The requests that carry a JSON body (folder
    creation and invitation) go out with [Content-Type: application/json],
    whatever [Content-Type] the caller's headers had, and with every other
    header of the caller unchanged, the bearer token among them. *)
Theorem json_requests_keep_headers hdrs parent_id folder_name emails sub k :
  k <> "Content-Type" ->
  dict_lookup "Content-Type" (headers (create_request hdrs parent_id folder_name))
    = Some "application/json"
  /\ dict_lookup "Content-Type" (headers (invite_request hdrs parent_id emails sub))
     = Some "application/json"
  /\ dict_lookup k (headers (create_request hdrs parent_id folder_name))
     = dict_lookup k hdrs
  /\ dict_lookup k (headers (invite_request hdrs parent_id emails sub))
     = dict_lookup k hdrs.
Proof.
  intros Hk. cbn [create_request invite_request headers].
  split; [apply dict_lookup_set_eq|]. split; [apply dict_lookup_set_eq|].
  split; now apply dict_lookup_set_ne.
Qed.

(** ** The uploads of a run *)

(** The trace the upload loop of [main] leaves when it returns. *)
Lemma upload_each_trace hdrs subfolder_id total files uploaded w ups w' :
  upload_each hdrs subfolder_id total files uploaded w = (Ret ups, w') ->
  uploads hdrs subfolder_id (disk w) files (sent w) (sent w')
  /\ ups = uploaded ++ files
  /\ disk w' = disk w.
Proof.
  intros Hrun.
  split; [|split; [exact (upload_each_ret _ _ _ _ _ _ _ _ Hrun)
                  |exact (keeps_upload_each_disk _ _ _ _ _ _ _ _ Hrun)]].
  revert uploaded w Hrun. induction files as [|path rest IH]; intros uploaded w Hrun.
  - cbn [upload_each] in Hrun. injection Hrun as _ <-. reflexivity.
  - rewrite upload_each_head in Hrun. unfold bind at 1 in Hrun.
    set (w0 := logged w (progress_line uploaded total path)) in *.
    destruct (disk w0 !! path) as [data|] eqn:Hd.
    2:{ rewrite upload_file_missing in Hrun by exact Hd. discriminate. }
    destruct (upload_file_windows hdrs subfolder_id path data w0 Hd)
      as (u & ws & r & w1 & Hup & _ & Hw & Hd1 & _ & Ht & Hfull
          & (tail & Htail & Hall) & _ & _).
    rewrite Hup in Hrun. destruct r as [[]|e|]; try discriminate.
    rewrite (Hall eq_refl), app_nil_r in Htail.
    cbn [uploads]. exists data, u, ws, (sent w1).
    split; [exact Hd|]. split; [exact Hw|]. split; [exact Ht|].
    split; [exact Hfull|]. split; [now symmetry|].
    specialize (IH _ _ Hrun). rewrite Hd1 in IH. exact IH.
Qed.

(** X11: files in order.  When the upload loop of [main] returns, every file
    of the list was on disk, and the trace is, for each file in the order
    given, the opening of its upload session followed by chunk writes whose
    windows are exactly its bytes; the list returned is the list given, and
    the disk is unchanged. *)
Theorem upload_each_in_order hdrs subfolder_id total files uploaded w ups w' :
  upload_each hdrs subfolder_id total files uploaded w = (Ret ups, w') ->
  uploads hdrs subfolder_id (disk w) files (sent w) (sent w')
  /\ ups = uploaded ++ files
  /\ disk w' = disk w.
Proof. exact (upload_each_trace hdrs subfolder_id total files uploaded w ups w'). Qed.

(** X12: the success record.  When [main] returns, its record names the
    base folder and the subfolder asked for, lists the files given in the
    order given and the default recipient followed by the added ones in the
    order given, every listed file is on disk, and the invitation for the
    subfolder is the last request sent. *)
Theorem main_success_record args w out w' :
  main args w = (Ret out, w') ->
  exists hdrs subfolder_id share_link,
    out = JObj [("status", JStr "success");
                ("base_folder", JStr "GlycoShield");
                ("sub_folder", JStr (subfolder args));
                ("sub_folder_id", subfolder_id);
                ("files_uploaded", JArr (map JStr (files_to_upload args)));
                ("shared_with",
                 JArr (map JStr ("simbiosyslab.neu@gmail.com" :: new_emails args)));
                ("invite_link", share_link)]
    /\ (exists earlier,
          sent w' = invite_request hdrs subfolder_id
                      ("simbiosyslab.neu@gmail.com" :: new_emails args)
                      (subfolder args) :: earlier)
    /\ Forall (fun path => exists data, disk w' !! path = Some data)
         (files_to_upload args).
Proof.
  intros Hmain. unfold main in Hmain. unfold bind at 1 in Hmain.
  destruct (resolve_folders args w) as [[[hdrs sid]|e|] w1] eqn:H1; try discriminate.
  unfold bind at 1 in Hmain.
  destruct (default_file_step args w1) as [[[]|e|] w2] eqn:H2; try discriminate.
  unfold bind at 1 in Hmain.
  destruct (upload_each hdrs sid _ _ _ w2) as [[ups|e|] w3] eqn:H3; try discriminate.
  unfold bind at 1 in Hmain.
  destruct (grant_folder_access hdrs sid _ _ w3) as [[link|e|] w4] eqn:H4;
    try discriminate.
  unfold bind, log, ret in Hmain. injection Hmain as <- <-.
  destruct (upload_each_trace _ _ _ _ _ _ _ _ H3) as (Hups & -> & Hd3).
  exists hdrs, sid, link. split; [reflexivity|].
  split; [exists (sent w3); exact (grant_sent _ _ _ _ _ _ _ H4)|].
  cbn [disk]. rewrite (keeps_grant_disk _ _ _ _ _ _ _ H4), Hd3.
  clear H3 H4. revert Hups. generalize (sent w2), (sent w3).
  induction (files_to_upload args) as [|p rest IH]; intros tr tr' Hups; constructor.
  - destruct Hups as (data & _ & _ & _ & Hp & _). now exists data.
  - destruct Hups as (_ & _ & _ & tr1 & _ & _ & _ & _ & _ & Hrest).
    exact (IH _ _ Hrest).
Qed.

(** X13: a session that does not open.  When the request for an upload
    session comes back with an error status, or as a success whose body has
    no [uploadUrl], [upload_file] raises ([HTTPError], [KeyError]) and no
    chunk write is made: the session request is the last request. *)
Theorem session_failure_sends_no_chunk hdrs parent_id path data w rs :
  disk w !! path = Some data ->
  server (session_request hdrs parent_id path :: sent w) = Resp rs ->
  (ok rs = false ->
     upload_file hdrs parent_id path w
       = (Raise (LibError (HTTPError (status_code rs))),
          session_world hdrs parent_id path w))
  /\ (forall fields,
        ok rs = true -> json_body rs = Some (JObj fields) ->
        dict_lookup "uploadUrl" fields = None ->
        upload_file hdrs parent_id path w
          = (Raise (LibError (KeyError "uploadUrl")),
             session_world hdrs parent_id path w))
  /\ sent (session_world hdrs parent_id path w)
     = session_request hdrs parent_id path :: sent w.
Proof.
  intros Hdisk Hsrv.
  assert (Hstart : upload_file hdrs parent_id path w =
            (raise_for_status rs ;;;
             j <- resp_json rs ;;
             upload_url <- lift (py_getitem j "uploadUrl") ;;
             data <- read_file path ;;
             upload_loop (S (length data)) (5 * 1024 * 1024) upload_url (len data)
               data 0 ;;;
             log ("File '" +:+ path +:+ "' uploaded successfully."))
              (session_world hdrs parent_id path w)).
  { unfold upload_file, bind at 1, os_path_exists. rewrite Hdisk. cbn [negb].
    unfold bind at 1. unfold log at 1. unfold bind at 1, http.
    cbn [sent disk stdout stderr]. rewrite Hsrv. reflexivity. }
  split; [|split; [|reflexivity]].
  - intros Hok. rewrite Hstart. unfold bind at 1, raise_for_status. rewrite Hok.
    reflexivity.
  - intros fields Hok Hj Hu. rewrite Hstart. unfold bind at 1, raise_for_status.
    rewrite Hok. unfold ret at 1. unfold bind at 1, resp_json. rewrite Hj.
    unfold ret at 1. unfold bind at 1, lift at 1, py_getitem. rewrite Hu.
    reflexivity.
Qed.

(** X14: the last window.  When [upload_file] returns on a file that is not
    empty, the request sent last is the [PUT] of the window that ends at the
    last byte of the file: its body is the tail of the file from [start], its
    [Content-Range] reads [bytes start-(size-1)/size]. *)
Theorem upload_file_last_window hdrs parent_id path data w w' :
  disk w !! path = Some data ->
  data <> [] ->
  upload_file hdrs parent_id path w = (Ret tt, w') ->
  exists upload_url before chunk earlier,
    sent w' =
      mkRequest PUT (py_str upload_url)
        [("Content-Length", str_of_Z (len chunk));
         ("Content-Range",
          "bytes " +:+ str_of_Z (len before) +:+ "-"
          +:+ str_of_Z (len data - 1) +:+ "/" +:+ str_of_Z (len data))]
        [] (Raw chunk)
      :: earlier
    /\ data = before ++ chunk
    /\ 0 < len chunk <= 5 * 1024 * 1024.
Proof.
  intros Hdisk Hne Hrun.
  destruct (upload_file_windows hdrs parent_id path data w Hdisk)
    as (u & ws & r & w0 & Hrun0 & _ & Hw & _ & _ & Ht & Hfull
        & (tail & Htail & Hall) & _ & _).
  rewrite Hrun in Hrun0. injection Hrun0 as <- <-.
  rewrite (Hall eq_refl), app_nil_r in Htail.
  destruct (exists_last (l := ws)) as (ws0 & [start chunk] & ->).
  { intros ->. apply Hne. exact Htail. }
  assert (Hstart : start = len (window_bytes ws0)).
  { assert (Hlast : (ws0 ++ [(start, chunk)]) !! length ws0 = Some (start, chunk)).
    { now apply list_lookup_middle. }
    pose proof (tiled_offset_bytes _ Ht (length ws0) (start, chunk) Hlast) as Hs.
    cbn [fst] in Hs. now rewrite take_app_length in Hs. }
  assert (Hdata : data = window_bytes ws0 ++ chunk).
  { rewrite Htail. unfold window_bytes. rewrite map_app, concat_app.
    cbn [map concat snd]. now rewrite app_nil_r. }
  pose proof (full_but_last_positive _ _ Hfull) as Hpos.
  rewrite Forall_app in Hpos. destruct Hpos as [_ Hpos].
  apply Forall_inv in Hpos. cbn [snd] in Hpos.
  exists u, (window_bytes ws0), chunk.
  exists (rev (map (window_request u (len data)) ws0)
          ++ session_request hdrs parent_id path :: sent w).
  split; [|split; [exact Hdata|exact Hpos]].
  unfold wrote in Hw. rewrite Hw, map_app, rev_app_distr.
  cbn [map rev app]. unfold window_request at 1, chunk_request, content_range.
  cbn [fst snd]. rewrite <- Hstart.
  replace (start + len chunk - 1) with (len data - 1); [reflexivity|].
  rewrite Hdata at 1. rewrite len_app. lia.
Qed.

(** ** More on the invitation *)

Lemma script_after_grant_raise args w hdrs subfolder_id w2 ups w3 e w4 :
  reaches_uploads args w hdrs subfolder_id w2 ->
  upload_each hdrs subfolder_id (length (files_to_upload args))
    (files_to_upload args) [] w2 = (Ret ups, w3) ->
  grant_folder_access hdrs subfolder_id (recipients args) (subfolder args) w3
    = (Raise e, w4) ->
  is_Exception e = true ->
  exists w',
    script args w = (Some 1, w')
    /\ stdout w' = stdout w ++ [failure_record (exn_str e)]
    /\ sent w' = sent w4.
Proof.
  intros Hreach Hup Hgrant He.
  destruct (main_after_uploads _ _ _ _ _ _ _ Hreach Hup) as [_ Hmain].
  rewrite (bind_raise _ _ _ _ _ Hgrant) in Hmain.
  eexists. split; [exact (script_failure _ _ _ _ Hmain He)|].
  cbn [after_failure stdout sent]. split; [|reflexivity]. f_equal.
  exact (keeps_main_stdout _ _ _ _ Hmain).
Qed.

(** X15: an invitation that is turned down.  When the invitation comes back
    with an error status after the uploads, the script ends with exit code 1
    and a failure record that carries the status and the body of the answer;
    the invitation is the last request: nothing is sent to undo the uploads,
    and the record does not list them. *)
Theorem invite_rejected_reported args w hdrs subfolder_id w2 ups w3 rs :
  reaches_uploads args w hdrs subfolder_id w2 ->
  upload_each hdrs subfolder_id (length (files_to_upload args))
    (files_to_upload args) [] w2 = (Ret ups, w3) ->
  server (invite_request hdrs subfolder_id (recipients args) (subfolder args)
          :: sent w3) = Resp rs ->
  ok rs = false ->
  exists w',
    script args w = (Some 1, w')
    /\ stdout w' = stdout w ++
         [JObj [("status", JStr "failure");
                ("error", JStr ("Failed to grant access: "
                                +:+ str_of_Z (status_code rs) +:+ nl +:+ text rs))]]
    /\ sent w' = invite_request hdrs subfolder_id (recipients args) (subfolder args)
                 :: sent w3.
Proof.
  intros Hreach Hup Hsrv Hok.
  assert (Hgrant :
    grant_folder_access hdrs subfolder_id (recipients args) (subfolder args) w3
    = (Raise (Exception ("Failed to grant access: " +:+ str_of_Z (status_code rs)
                         +:+ nl +:+ text rs)),
       invited hdrs subfolder_id (recipients args) (subfolder args) w3)).
  { unfold grant_folder_access, bind at 1. unfold log at 1. unfold bind at 1, http.
    cbn [sent disk stdout stderr]. rewrite Hsrv, Hok. reflexivity. }
  destruct (script_after_grant_raise _ _ _ _ _ _ _ _ _ Hreach Hup Hgrant eq_refl)
    as (w' & Hrun & Hout & Hsent).
  exists w'. split; [exact Hrun|]. split; [exact Hout|exact Hsent].
Qed.

(** X16: a web URL that is empty.  When the first permission record has a
    [link] whose [webUrl] is there but falsy (empty text, [null]), the
    placeholder text is returned as for a missing link, after a warning on
    standard error. *)
Theorem falsy_web_url_degrades hdrs item_id emails sub w fields ps lf u :
  invite_answer hdrs item_id emails sub w (JArr (JObj fields :: ps)) ->
  dict_lookup "link" fields = Some (JObj lf) ->
  dict_lookup "webUrl" lf = Some u ->
  truthy u = false ->
  grant_folder_access hdrs item_id emails sub w
    = (Ret (JStr ("Access granted to item " +:+ py_str item_id
                  +:+ " (no direct link returned)")),
       logged (invited hdrs item_id emails sub w)
         "Warning: Invite sent, but no webUrl was found in the API response.").
Proof.
  intros Hans Hl Hu Ht.
  rewrite (grant_answered _ _ _ _ _ _ Hans). cbn [truthy negb py_first].
  unfold bind at 1, lift at 1. unfold bind at 1, lift at 1, py_get at 1. rewrite Hl.
  unfold bind at 1, lift at 1, py_get. rewrite Hu, Ht. reflexivity.
Qed.

(** X17: a link that is not an object.  When the first permission record
    has a [link] that is there but is not an object ([null] for one), the
    lookup of [webUrl] raises [AttributeError]: the run fails with exit code 1
    and a failure record, where a record with no [link] at all only degrades
    to the placeholder. *)
Theorem null_link_fails args w hdrs subfolder_id w2 ups w3 fields ps l :
  reaches_uploads args w hdrs subfolder_id w2 ->
  upload_each hdrs subfolder_id (length (files_to_upload args))
    (files_to_upload args) [] w2 = (Ret ups, w3) ->
  invite_answer hdrs subfolder_id (recipients args) (subfolder args) w3
    (JArr (JObj fields :: ps)) ->
  dict_lookup "link" fields = Some l ->
  (forall lf, l <> JObj lf) ->
  grant_folder_access hdrs subfolder_id (recipients args) (subfolder args) w3
    = (Raise (LibError AttributeError),
       invited hdrs subfolder_id (recipients args) (subfolder args) w3)
  /\ exists w',
       script args w = (Some 1, w')
       /\ stdout w' = stdout w ++ [failure_record (lib_str AttributeError)].
Proof.
  intros Hreach Hup Hans Hl Hnot.
  assert (Hgrant :
    grant_folder_access hdrs subfolder_id (recipients args) (subfolder args) w3
    = (Raise (LibError AttributeError),
       invited hdrs subfolder_id (recipients args) (subfolder args) w3)).
  { rewrite (grant_answered _ _ _ _ _ _ Hans). cbn [truthy negb py_first].
    unfold bind at 1, lift at 1. unfold bind at 1, lift at 1, py_get at 1.
    rewrite Hl. unfold bind at 1, lift at 1, py_get.
    destruct l; try reflexivity. now destruct (Hnot fields0). }
  split; [exact Hgrant|].
  destruct (script_after_grant_raise _ _ _ _ _ _ _ _ _ Hreach Hup Hgrant eq_refl)
    as (w' & Hrun & Hout & _).
  exists w'. split; [exact Hrun|exact Hout].
Qed.

End Properties.

(** * The statements at work on the small service *)

(** Three windows of four bytes at most over a ten-byte file. *)
Example upload_loop_three_windows :
  let '(r, w) := upload_loop (RT := toy_ok) 4 4 (JStr "u") 10 (repeat x00 10) 0
                   empty_world in
  r = Ret tt
  /\ map (fun rq => dict_lookup "Content-Range" (headers rq)) (rev (sent w))
     = [Some "bytes 0-3/10"; Some "bytes 4-7/10"; Some "bytes 8-9/10"].
Proof. vm_compute. split; reflexivity. Qed.

(** C1, at a token request answered 401: the script ends with exit code 1
    and standard output stays empty, where a failure record is promised. *)
Theorem token_failure_prints_nothing :
  fst (script (RT := toy_no_token) default_args empty_world) = Some 1
  /\ stdout (snd (script (RT := toy_no_token) default_args empty_world)) = []
  /\ sent (snd (script (RT := toy_no_token) default_args empty_world))
     = [token_request (RT := toy_no_token)].
Proof. vm_compute. repeat split; reflexivity. Qed.

(** C2 as stated fails on an empty file: the upload returns and no chunk
    write was made, let alone one with the range [0--1/0]. *)
Lemma empty_file_single_window_refuted :
  let run := upload_file (RT := toy_ok) toy_headers (JStr "dir") "empty.bin"
               (world_with "empty.bin" []) in
  fst run = Ret tt
  /\ chunk_writes (sent (snd run)) = []
  /\ ~ (exists rq, chunk_writes (sent (snd run)) = [rq]
                   /\ body rq = Raw []
                   /\ dict_lookup "Content-Range" (headers rq) = Some "bytes 0--1/0").
Proof.
  vm_compute. split; [reflexivity|]. split; [reflexivity|].
  intros (rq & H & _). discriminate H.
Qed.

Lemma empty_file_sends_no_window_witness :
  disk (world_with "empty.bin" []) !! "empty.bin" = Some []
  /\ exists r w',
       upload_file (RT := toy_ok) toy_headers (JStr "dir") "empty.bin"
         (world_with "empty.bin" []) = (r, w')
       /\ chunk_writes (sent w') = [].
Proof.
  split; [vm_compute; reflexivity|].
  destruct (empty_file_sends_no_window (RT := toy_ok) toy_headers (JStr "dir")
              "empty.bin" (world_with "empty.bin" []))
    as (_ & r & w' & Hrun & _ & _ & Hw); [vm_compute; reflexivity|].
  exists r, w'. split; [exact Hrun|exact Hw].
Defined.

Lemma upload_file_partitions_witness :
  disk (world_with "a.bin" sample_bytes) !! "a.bin" = Some sample_bytes
  /\ upload_file (RT := toy_ok) toy_headers (JStr "dir") "a.bin"
       (world_with "a.bin" sample_bytes)
     = (Ret tt, snd (upload_file (RT := toy_ok) toy_headers (JStr "dir") "a.bin"
                       (world_with "a.bin" sample_bytes)))
  /\ exists upload_url,
       sent (snd (upload_file (RT := toy_ok) toy_headers (JStr "dir") "a.bin"
                    (world_with "a.bin" sample_bytes)))
       = [mkRequest PUT (py_str (RT := toy_ok) upload_url)
            [("Content-Length", "3"); ("Content-Range", "bytes 0-2/3")]
            [] (Raw sample_bytes);
          session_request (RT := toy_ok) toy_headers (JStr "dir") "a.bin"].
Proof.
  assert (H1 : disk (world_with "a.bin" sample_bytes) !! "a.bin" = Some sample_bytes)
    by (vm_compute; reflexivity).
  assert (H2 : upload_file (RT := toy_ok) toy_headers (JStr "dir") "a.bin"
                 (world_with "a.bin" sample_bytes)
               = (Ret tt, snd (upload_file (RT := toy_ok) toy_headers (JStr "dir")
                                 "a.bin" (world_with "a.bin" sample_bytes))))
    by (vm_compute; reflexivity).
  split; [exact H1|]. split; [exact H2|].
  destruct (upload_file_partitions (RT := toy_ok) _ _ _ _ _ _ _ H1 H2)
    as (u & ws & Hsent & Ht & Hfull & _ & _ & _ & Hall & _).
  destruct (Hall eq_refl) as [Hb _].
  assert (Hlen : 0 < len sample_bytes <= CHUNK_SIZE)
    by (vm_compute; split; [reflexivity|discriminate]).
  rewrite (single_window CHUNK_SIZE ws sample_bytes Ht Hfull Hb Hlen) in Hsent.
  exists u. exact Hsent.
Defined.

Lemma upload_loop_terminates_witness :
  (Z.to_nat (ceil_div (len sample_bytes) CHUNK_SIZE) < 2)%nat
  /\ exists (ws : list window) r w',
       upload_loop (RT := toy_ok) 2 CHUNK_SIZE (JStr "u") (len sample_bytes)
         sample_bytes 0 empty_world = (r, w')
       /\ r <> Diverge
       /\ Z.of_nat (length ws) <= ceil_div (len sample_bytes) CHUNK_SIZE.
Proof.
  assert (H : (Z.to_nat (ceil_div (len sample_bytes) CHUNK_SIZE) < 2)%nat)
    by (vm_compute; lia).
  split; [exact H|].
  destruct (upload_loop_terminates (RT := toy_ok) 2 (JStr "u") sample_bytes
              empty_world H)
    as (ws & r & w' & Hrun & Hnd & _ & Hle & _).
  exists ws, r, w'. split; [exact Hrun|]. split; [exact Hnd|exact Hle].
Defined.

(** C5 as stated fails on the default list: [test_upload.txt] is an input
    path that is not on disk, and the script ends with exit code 0 and a
    success record. *)
Lemma missing_default_file_succeeds :
  In "test_upload.txt" (files_to_upload default_args)
  /\ disk empty_world !! "test_upload.txt" = None
  /\ fst (script (RT := toy_ok) default_args empty_world) = Some 0
  /\ ~ (fst (script (RT := toy_ok) default_args empty_world) = Some 1)
  /\ exists fields,
       stdout (snd (script (RT := toy_ok) default_args empty_world)) = [JObj fields]
       /\ dict_lookup "status" fields = Some (JStr "success")
       /\ dict_lookup "error" fields = None.
Proof.
  split; [left; reflexivity|].
  split; [vm_compute; reflexivity|].
  split; [vm_compute; reflexivity|].
  split; [vm_compute; discriminate|].
  eexists. split; [vm_compute; reflexivity|]. split; vm_compute; reflexivity.
Qed.

Lemma missing_file_fails_witness :
  reaches_uploads (RT := toy_ok) missing_args empty_world toy_headers (JStr "id-x")
    (setup_world toy_ok missing_args)
  /\ files_to_upload missing_args = [] ++ "nope.zip" :: []
  /\ disk (setup_world toy_ok missing_args) !! "nope.zip" = None
  /\ exists w',
       script (RT := toy_ok) missing_args empty_world = (Some 1, w')
       /\ stdout w' =
            [JObj [("status", JStr "failure");
                   ("error", JStr "The specified file does not exist: nope.zip")]]
       /\ sent w' = sent (setup_world toy_ok missing_args).
Proof.
  assert (H1 : reaches_uploads (RT := toy_ok) missing_args empty_world toy_headers
                 (JStr "id-x") (setup_world toy_ok missing_args)).
  { exists (snd (resolve_folders (RT := toy_ok) missing_args empty_world)).
    split; vm_compute; reflexivity. }
  assert (H2 : files_to_upload missing_args = [] ++ "nope.zip" :: [])
    by reflexivity.
  assert (H3 : upload_each (RT := toy_ok) toy_headers (JStr "id-x")
                 (length (files_to_upload missing_args)) [] []
                 (setup_world toy_ok missing_args)
               = (Ret [], setup_world toy_ok missing_args)) by reflexivity.
  assert (H4 : disk (setup_world toy_ok missing_args) !! "nope.zip" = None)
    by (vm_compute; reflexivity).
  split; [exact H1|]. split; [exact H2|]. split; [exact H4|].
  destruct (missing_file_fails (RT := toy_ok) _ _ _ _ _ _ _ _ _ _ H1 H2 H3 H4)
    as (_ & w' & Hrun & Hout & Hsent & _).
  exists w'. split; [exact Hrun|]. split; [exact Hout|exact Hsent].
Defined.

Lemma empty_permissions_fail_witness :
  reaches_uploads (RT := toy_no_permission) default_args empty_world toy_headers
    (JStr "id-public") (setup_world toy_no_permission default_args)
  /\ invite_answer (RT := toy_no_permission) toy_headers (JStr "id-public")
       (recipients default_args) "public"
       (uploaded_world toy_no_permission default_args) (JArr [])
  /\ exists w',
       script (RT := toy_no_permission) default_args empty_world = (Some 1, w')
       /\ stdout w' = stdout empty_world ++
            [JObj [("status", JStr "failure");
                   ("error", JStr "Invite sent, but no permission data was returned.")]].
Proof.
  assert (H1 : reaches_uploads (RT := toy_no_permission) default_args empty_world
                 toy_headers (JStr "id-public")
                 (setup_world toy_no_permission default_args)).
  { exists (snd (resolve_folders (RT := toy_no_permission) default_args empty_world)).
    split; vm_compute; reflexivity. }
  assert (H2 : upload_each (RT := toy_no_permission) toy_headers (JStr "id-public")
                 (length (files_to_upload default_args)) (files_to_upload default_args)
                 [] (setup_world toy_no_permission default_args)
               = (Ret ["test_upload.txt"], uploaded_world toy_no_permission default_args))
    by (vm_compute; reflexivity).
  assert (H3 : invite_answer (RT := toy_no_permission) toy_headers (JStr "id-public")
                 (recipients default_args) (subfolder default_args)
                 (uploaded_world toy_no_permission default_args) (JArr [])).
  { eexists. eexists. split; [vm_compute; reflexivity|].
    split; [vm_compute; reflexivity|]. split; [vm_compute; reflexivity|].
    vm_compute; reflexivity. }
  split; [exact H1|]. split; [exact H3|].
  destruct (empty_permissions_fail (RT := toy_no_permission) _ _ _ _ _ _ _ _ H1 H2 H3)
    as (Hempty & _).
  destruct (Hempty eq_refl) as (_ & w' & Hrun & Hout).
  exists w'. split; [exact Hrun|exact Hout].
Defined.

Lemma missing_link_degrades_witness :
  reaches_uploads (RT := toy_no_link) default_args empty_world toy_headers
    (JStr "id-public") (setup_world toy_no_link default_args)
  /\ invite_answer (RT := toy_no_link) toy_headers (JStr "id-public")
       (recipients default_args) "public"
       (uploaded_world toy_no_link default_args) (JArr [JObj []])
  /\ exists w',
       script (RT := toy_no_link) default_args empty_world = (Some 0, w')
       /\ stdout w' = stdout empty_world ++
            [JObj [("status", JStr "success");
                   ("base_folder", JStr "GlycoShield");
                   ("sub_folder", JStr "public");
                   ("sub_folder_id", JStr "id-public");
                   ("files_uploaded", JArr [JStr "test_upload.txt"]);
                   ("shared_with", JArr [JStr "simbiosyslab.neu@gmail.com"]);
                   ("invite_link",
                    JStr "Access granted to item id-public (no direct link returned)")]].
Proof.
  assert (H1 : reaches_uploads (RT := toy_no_link) default_args empty_world
                 toy_headers (JStr "id-public") (setup_world toy_no_link default_args)).
  { exists (snd (resolve_folders (RT := toy_no_link) default_args empty_world)).
    split; vm_compute; reflexivity. }
  assert (H2 : upload_each (RT := toy_no_link) toy_headers (JStr "id-public")
                 (length (files_to_upload default_args)) (files_to_upload default_args)
                 [] (setup_world toy_no_link default_args)
               = (Ret ["test_upload.txt"], uploaded_world toy_no_link default_args))
    by (vm_compute; reflexivity).
  assert (H3 : invite_answer (RT := toy_no_link) toy_headers (JStr "id-public")
                 (recipients default_args) (subfolder default_args)
                 (uploaded_world toy_no_link default_args) (JArr [JObj []])).
  { eexists. eexists. split; [vm_compute; reflexivity|].
    split; [vm_compute; reflexivity|]. split; [vm_compute; reflexivity|].
    vm_compute; reflexivity. }
  split; [exact H1|]. split; [exact H3|].
  destruct (missing_link_degrades (RT := toy_no_link) _ _ _ _ _ _ _ _ _ H1 H2 H3)
    as (Hnone & _).
  destruct (Hnone eq_refl) as (w4 & w' & _ & Hrun & Hout).
  exists w'. split; [exact Hrun|exact Hout].
Defined.

Lemma chunk_status_decides_witness :
  fst (upload_loop (RT := toy_no_chunk) 2 CHUNK_SIZE (JStr "u") 3 sample_bytes 0
         empty_world)
    = Raise (Exception ("Chunk upload failed: 500" +:+ nl +:+ "chunk"))
  /\ exists w',
       script (RT := toy_no_chunk) default_args empty_world = (Some 1, w')
       /\ stdout w' =
            [failure_record ("Chunk upload failed: 500" +:+ nl +:+ "chunk")]
       /\ chunk_writes (sent w')
          = [chunk_request (RT := toy_no_chunk) (JStr "https://upload.example/s")
               27 0 dummy_bytes].
Proof.
  destruct (chunk_status_decides (RT := toy_no_chunk))
    as (_ & Hstep & _ & _ & Hscript).
  split.
  - destruct (Hstep 1%nat CHUNK_SIZE (JStr "u") 3 sample_bytes 0 empty_world
                (mkResponse 500 "chunk" None))
      as (_ & _ & Hno); [lia | vm_compute; reflexivity |].
    rewrite (Hno eq_refl). reflexivity.
  - destruct (Hscript default_args empty_world toy_headers (JStr "id-public")
                (setup_world toy_no_chunk default_args)
                (Exception ("Chunk upload failed: 500" +:+ nl +:+ "chunk"))
                (uploaded_world toy_no_chunk default_args))
      as (Hrun & _ & Hout).
    + exists (snd (resolve_folders (RT := toy_no_chunk) default_args empty_world)).
      split; vm_compute; reflexivity.
    + vm_compute; reflexivity.
    + reflexivity.
    + eexists. split; [exact Hrun|]. split; [exact Hout|].
      vm_compute; reflexivity.
Defined.

Lemma default_file_synthesized_witness :
  files_to_upload default_args = ["test_upload.txt"]
  /\ disk empty_world !! "test_upload.txt" = None
  /\ exists w'',
       script (RT := toy_ok) default_args empty_world = (Some 0, w'')
       /\ stdout w'' = stdout empty_world ++
            [success_record "public" (JStr "id-public")
               ["test_upload.txt"] ["simbiosyslab.neu@gmail.com"]
               (JStr "https://share.example/x")]
       /\ disk (snd (main (RT := toy_ok) default_args empty_world))
            !! "test_upload.txt" = Some dummy_bytes.
Proof.
  assert (H0 : files_to_upload default_args = ["test_upload.txt"]) by reflexivity.
  assert (H : disk empty_world !! "test_upload.txt" = None)
    by (vm_compute; reflexivity).
  split; [exact H0|]. split; [exact H|].
  destruct (default_file_synthesized (RT := toy_ok) default_args empty_world H0 H)
    as (_ & Hmain).
  destruct (Hmain (success_record "public" (JStr "id-public")
                     ["test_upload.txt"] ["simbiosyslab.neu@gmail.com"]
                     (JStr "https://share.example/x"))
              (snd (main (RT := toy_ok) default_args empty_world)))
    as (Hdisk & _ & _ & w'' & Hrun & Hout); [vm_compute; reflexivity|].
  exists w''. split; [exact Hrun|]. split; [exact Hout|exact Hdisk].
Defined.

(** The same under another subfolder and with an added recipient: the file
    list alone decides. *)
Example default_file_other_subfolder :
  let '(code, w) := script (RT := toy_ok) (mkArgs "reports" ["test_upload.txt"] ["a@b"])
                      empty_world in
  code = Some 0
  /\ disk w !! "test_upload.txt"
     = Some (list_byte_of_string "This is a test upload file.")
  /\ stdout w =
       [JObj [("status", JStr "success");
              ("base_folder", JStr "GlycoShield");
              ("sub_folder", JStr "reports");
              ("sub_folder_id", JStr "id-reports");
              ("files_uploaded", JArr [JStr "test_upload.txt"]);
              ("shared_with", JArr [JStr "simbiosyslab.neu@gmail.com"; JStr "a@b"]);
              ("invite_link", JStr "https://share.example/x")]].
Proof. vm_compute. repeat split; reflexivity. Qed.



(** The same on a parent that already shows the folder: no creation, twice
    the same identifier. *)
Example find_or_create_twice_on_existing :
  let w0 := mkWorld ∅ [create_request (RT := toy_ok) toy_headers (JStr "root")
                          "GlycoShield"] [] [] in
  let '(r1, w1) := get_or_create_folder (RT := toy_ok) toy_headers (JStr "root")
                     "GlycoShield" w0 in
  let '(r2, w2) := get_or_create_folder (RT := toy_ok) toy_headers (JStr "root")
                     "GlycoShield" w1 in
  r1 = r2 /\ length (sent w2) = 3%nat.
Proof. vm_compute. split; reflexivity. Qed.

(** The scan skips a file of the wanted name and takes the first folder whose
    name matches up to case. *)
Example scan_takes_first_folder :
  scan_items (RT := toy_ok)
    [JObj [("id", JStr "1"); ("name", JStr "GLYCOSHIELD"); ("file", JObj [])];
     JObj [("id", JStr "2"); ("name", JStr "Other"); ("folder", JObj [])];
     JObj [("id", JStr "3"); ("name", JStr "GlycoShield"); ("folder", JObj [])];
     JObj [("id", JStr "4"); ("name", JStr "glycoshield"); ("folder", JObj [])]]
    "glycoshield"
  = Ret (Some (JStr "3")).
Proof. vm_compute. reflexivity. Qed.

(** * The further statements at work on the small service *)

Lemma script_output_shape_witness :
  script (RT := toy_ok) default_args empty_world
    = (Some 0, snd (script (RT := toy_ok) default_args empty_world))
  /\ exists fields,
       stdout (snd (script (RT := toy_ok) default_args empty_world)) = [JObj fields]
       /\ dict_lookup "status" fields = Some (JStr "success").
Proof.
  assert (H : script (RT := toy_ok) default_args empty_world
              = (Some 0, snd (script (RT := toy_ok) default_args empty_world)))
    by (vm_compute; reflexivity).
  split; [exact H|].
  destruct (script_output_shape (RT := toy_ok) _ _ _ _ H)
    as [(_ & [Hc | (msg & w1 & _ & Hc)]) | (fields & Hout & [(Hs & _) | (_ & Hc)])];
    try discriminate Hc.
  exists fields. split; [exact Hout|exact Hs].
Defined.

Lemma token_request_first_witness :
  script (RT := toy_ok) default_args empty_world
    = (Some 0, snd (script (RT := toy_ok) default_args empty_world))
  /\ exists later,
       sent (snd (script (RT := toy_ok) default_args empty_world))
         = later ++ [token_request (RT := toy_ok)].
Proof.
  assert (H : script (RT := toy_ok) default_args empty_world
              = (Some 0, snd (script (RT := toy_ok) default_args empty_world)))
    by (vm_compute; reflexivity).
  split; [exact H|].
  destruct (token_request_first (RT := toy_ok) _ _ _ _ H) as (later & Hs & _).
  exists later. exact Hs.
Defined.

Lemma token_key_missing_reported_witness :
  @server toy_hollow (token_request (RT := toy_hollow) :: sent empty_world)
    = Resp (mkResponse 200 "" (Some (JObj [])))
  /\ exists w',
       script (RT := toy_hollow) default_args empty_world = (Some 1, w')
       /\ sent w' = [token_request (RT := toy_hollow)].
Proof.
  assert (H : @server toy_hollow
                (token_request (RT := toy_hollow) :: sent empty_world)
              = Resp (mkResponse 200 "" (Some (JObj [])))) by reflexivity.
  split; [exact H|].
  destruct (token_key_missing_reported (RT := toy_hollow) default_args empty_world
              _ [] H) as (w' & Hrun & _ & Hsent); try reflexivity.
  exists w'. split; [exact Hrun|exact Hsent].
Defined.

Lemma token_network_error_reported_witness :
  @server toy_offline (token_request (RT := toy_offline) :: sent empty_world)
    = NetErr
  /\ exists w',
       script (RT := toy_offline) default_args empty_world = (Some 1, w')
       /\ stdout w' = [failure_record "<library error>"].
Proof.
  assert (H : @server toy_offline
                (token_request (RT := toy_offline) :: sent empty_world) = NetErr)
    by reflexivity.
  split; [exact H|].
  destruct (token_network_error_reported (RT := toy_offline) default_args
              empty_world H) as (w' & Hrun & Hout & _).
  exists w'. split; [exact Hrun|exact Hout].
Defined.

Lemma script_disk_untouched_witness :
  script (RT := toy_ok) missing_args (world_with "keep.bin" sample_bytes)
    = (Some 1, snd (script (RT := toy_ok) missing_args
                      (world_with "keep.bin" sample_bytes)))
  /\ disk (snd (script (RT := toy_ok) missing_args
                  (world_with "keep.bin" sample_bytes))) !! "keep.bin"
     = Some sample_bytes.
Proof.
  assert (H : script (RT := toy_ok) missing_args (world_with "keep.bin" sample_bytes)
              = (Some 1, snd (script (RT := toy_ok) missing_args
                                (world_with "keep.bin" sample_bytes))))
    by (vm_compute; reflexivity).
  split; [exact H|].
  destruct (script_disk_untouched (RT := toy_ok) _ _ _ _ H) as (_ & Hkeep).
  apply Hkeep. vm_compute; reflexivity.
Defined.

Lemma listing_failure_raises_witness :
  @server toy_busy
    (find_request (RT := toy_busy) toy_headers (JStr "root") "GlycoShield"
     :: sent empty_world) = Resp (mkResponse 503 "busy" None)
  /\ ok (mkResponse 503 "busy" None) = false
  /\ exists w',
       get_or_create_folder (RT := toy_busy) toy_headers (JStr "root") "GlycoShield"
         empty_world = (Raise (LibError (HTTPError 503)), w')
       /\ length (sent w') = 1%nat.
Proof.
  assert (H : @server toy_busy
                (find_request (RT := toy_busy) toy_headers (JStr "root") "GlycoShield"
                 :: sent empty_world) = Resp (mkResponse 503 "busy" None))
    by reflexivity.
  assert (Hok : ok (mkResponse 503 "busy" None) = false) by reflexivity.
  split; [exact H|]. split; [exact Hok|].
  destruct (listing_failure_raises (RT := toy_busy) _ _ _ _ _ H Hok)
    as (w' & Hrun & Hsent & _).
  exists w'. split; [exact Hrun|]. rewrite Hsent. reflexivity.
Defined.

Lemma listing_without_value_creates_witness :
  exists w',
    get_or_create_folder (RT := toy_ok) toy_headers (JStr "root") "GlycoShield"
      empty_world = (Ret (JStr "id-GlycoShield"), w')
    /\ length (sent w') = 2%nat.
Proof.
  destruct (listing_without_value_creates (RT := toy_ok) toy_headers (JStr "root")
              "GlycoShield" empty_world
              (mkResponse 200 "" (Some (JObj [("value", JArr [])])))
              [("value", JArr [])]
              (mkResponse 201 ""
                 (Some (JObj [("id", JStr "id-GlycoShield");
                              ("name", JStr "GlycoShield"); ("folder", JObj [])])))
              (JObj [("id", JStr "id-GlycoShield");
                     ("name", JStr "GlycoShield"); ("folder", JObj [])])
              (JStr "id-GlycoShield"))
    as (w' & Hrun & Hsent & _);
    try (vm_compute; reflexivity).
  { right. reflexivity. }
  exists w'. split; [exact Hrun|]. rewrite Hsent. reflexivity.
Defined.

Lemma scan_items_sound_witness :
  scan_items (RT := toy_ok)
    [JObj [("id", JStr "1"); ("name", JStr "GLYCOSHIELD")];
     JObj [("id", JStr "3"); ("name", JStr "GlycoShield"); ("folder", JObj [])]]
    "glycoshield" = Ret (Some (JStr "3"))
  /\ exists before item after,
       [JObj [("id", JStr "1"); ("name", JStr "GLYCOSHIELD")];
        JObj [("id", JStr "3"); ("name", JStr "GlycoShield"); ("folder", JObj [])]]
       = before ++ item :: after
       /\ is_folder_match (RT := toy_ok) "glycoshield" item = true.
Proof.
  assert (H : scan_items (RT := toy_ok)
                [JObj [("id", JStr "1"); ("name", JStr "GLYCOSHIELD")];
                 JObj [("id", JStr "3"); ("name", JStr "GlycoShield");
                       ("folder", JObj [])]]
                "glycoshield" = Ret (Some (JStr "3")))
    by (vm_compute; reflexivity).
  split; [exact H|].
  destruct (scan_items_sound (RT := toy_ok) _ _ _ H)
    as (before & item & after & Heq & Hm & _).
  exists before, item, after. split; [exact Heq|exact Hm].
Defined.

Lemma scan_items_nameless_witness :
  Forall (fun x => drive_item x
                   /\ is_folder_match (RT := toy_ok) "GlycoShield" x = false)
    [JObj [("id", JStr "1"); ("name", JStr "Other"); ("folder", JObj [])]]
  /\ dict_lookup "name" [("id", JStr "2"); ("folder", JObj [])] = None
  /\ scan_items (RT := toy_ok)
       ([JObj [("id", JStr "1"); ("name", JStr "Other"); ("folder", JObj [])]]
        ++ JObj [("id", JStr "2"); ("folder", JObj [])]
        :: [JObj [("id", JStr "3"); ("name", JStr "GlycoShield"); ("folder", JObj [])]])
       "GlycoShield" = Raise (LibError (KeyError "name")).
Proof.
  assert (H1 : Forall (fun x => drive_item x
                   /\ is_folder_match (RT := toy_ok) "GlycoShield" x = false)
                 [JObj [("id", JStr "1"); ("name", JStr "Other"); ("folder", JObj [])]]).
  { constructor; [|constructor]. split; [|vm_compute; reflexivity].
    eexists. eexists. eexists. split; [reflexivity|]. split; reflexivity. }
  assert (H2 : dict_lookup "name" [("id", JStr "2"); ("folder", JObj [])]
               = @None json) by reflexivity.
  split; [exact H1|]. split; [exact H2|].
  exact (scan_items_nameless (RT := toy_ok) _ _ _ _ H1 H2).
Defined.

Lemma upload_each_in_order_witness :
  upload_each (RT := toy_ok) toy_headers (JStr "dir") 1 ["a.bin"] []
    (world_with "a.bin" sample_bytes)
    = (Ret ["a.bin"],
       snd (upload_each (RT := toy_ok) toy_headers (JStr "dir") 1 ["a.bin"] []
              (world_with "a.bin" sample_bytes)))
  /\ uploads (RT := toy_ok) toy_headers (JStr "dir")
       (disk (world_with "a.bin" sample_bytes)) ["a.bin"] []
       (sent (snd (upload_each (RT := toy_ok) toy_headers (JStr "dir") 1 ["a.bin"] []
                     (world_with "a.bin" sample_bytes)))).
Proof.
  assert (H : upload_each (RT := toy_ok) toy_headers (JStr "dir") 1 ["a.bin"] []
                (world_with "a.bin" sample_bytes)
              = (Ret ["a.bin"],
                 snd (upload_each (RT := toy_ok) toy_headers (JStr "dir") 1 ["a.bin"]
                        [] (world_with "a.bin" sample_bytes))))
    by (vm_compute; reflexivity).
  split; [exact H|].
  destruct (upload_each_in_order (RT := toy_ok) _ _ _ _ _ _ _ _ H) as (Hu & _ & _).
  exact Hu.
Defined.

Lemma main_success_record_witness :
  main (RT := toy_ok) default_args empty_world
    = (fst (main (RT := toy_ok) default_args empty_world),
       snd (main (RT := toy_ok) default_args empty_world))
  /\ fst (main (RT := toy_ok) default_args empty_world)
     = Ret (success_record "public" (JStr "id-public") ["test_upload.txt"]
              ["simbiosyslab.neu@gmail.com"] (JStr "https://share.example/x"))
  /\ Forall (fun path =>
       exists data,
         disk (snd (main (RT := toy_ok) default_args empty_world)) !! path = Some data)
       (files_to_upload default_args).
Proof.
  assert (H : main (RT := toy_ok) default_args empty_world
              = (Ret (success_record "public" (JStr "id-public") ["test_upload.txt"]
                        ["simbiosyslab.neu@gmail.com"] (JStr "https://share.example/x")),
                 snd (main (RT := toy_ok) default_args empty_world)))
    by (vm_compute; reflexivity).
  split; [vm_compute; reflexivity|]. split; [vm_compute; reflexivity|].
  destruct (main_success_record (RT := toy_ok) _ _ _ _ H) as (_ & _ & _ & _ & _ & Hd).
  exact Hd.
Defined.

Lemma session_failure_sends_no_chunk_witness :
  disk (world_with "a.bin" sample_bytes) !! "a.bin" = Some sample_bytes
  /\ upload_file (RT := toy_busy) toy_headers (JStr "dir") "a.bin"
       (world_with "a.bin" sample_bytes)
     = (Raise (LibError (HTTPError 503)),
        session_world (RT := toy_busy) toy_headers (JStr "dir") "a.bin"
          (world_with "a.bin" sample_bytes))
  /\ upload_file (RT := toy_hollow) toy_headers (JStr "dir") "a.bin"
       (world_with "a.bin" sample_bytes)
     = (Raise (LibError (KeyError "uploadUrl")),
        session_world (RT := toy_hollow) toy_headers (JStr "dir") "a.bin"
          (world_with "a.bin" sample_bytes)).
Proof.
  assert (H : disk (world_with "a.bin" sample_bytes) !! "a.bin" = Some sample_bytes)
    by (vm_compute; reflexivity).
  split; [exact H|]. split.
  - destruct (session_failure_sends_no_chunk (RT := toy_busy) toy_headers (JStr "dir")
                "a.bin" sample_bytes (world_with "a.bin" sample_bytes)
                (mkResponse 503 "busy" None) H eq_refl) as (Hno & _ & _).
    exact (Hno eq_refl).
  - destruct (session_failure_sends_no_chunk (RT := toy_hollow) toy_headers
                (JStr "dir") "a.bin" sample_bytes (world_with "a.bin" sample_bytes)
                (mkResponse 200 "" (Some (JObj []))) H eq_refl) as (_ & Hkey & _).
    exact (Hkey [] eq_refl eq_refl eq_refl).
Defined.

Lemma upload_file_last_window_witness :
  disk (world_with "a.bin" sample_bytes) !! "a.bin" = Some sample_bytes
  /\ sample_bytes <> []
  /\ exists upload_url before chunk earlier,
       sent (snd (upload_file (RT := toy_ok) toy_headers (JStr "dir") "a.bin"
                    (world_with "a.bin" sample_bytes)))
         = mkRequest PUT (py_str (RT := toy_ok) upload_url)
             [("Content-Length", str_of_Z (len chunk));
              ("Content-Range",
               "bytes " +:+ str_of_Z (len before) +:+ "-2/3")]
             [] (Raw chunk)
           :: earlier
       /\ sample_bytes = before ++ chunk.
Proof.
  assert (H1 : disk (world_with "a.bin" sample_bytes) !! "a.bin" = Some sample_bytes)
    by (vm_compute; reflexivity).
  assert (H2 : sample_bytes <> []) by discriminate.
  assert (H3 : upload_file (RT := toy_ok) toy_headers (JStr "dir") "a.bin"
                 (world_with "a.bin" sample_bytes)
               = (Ret tt, snd (upload_file (RT := toy_ok) toy_headers (JStr "dir")
                                 "a.bin" (world_with "a.bin" sample_bytes))))
    by (vm_compute; reflexivity).
  split; [exact H1|]. split; [exact H2|].
  destruct (upload_file_last_window (RT := toy_ok) _ _ _ _ _ _ H1 H2 H3)
    as (u & before & chunk & earlier & Hs & Hd & _).
  exists u, before, chunk, earlier. split; [exact Hs|exact Hd].
Defined.

Lemma invite_rejected_reported_witness :
  reaches_uploads (RT := toy_no_invite) default_args empty_world toy_headers
    (JStr "id-public") (setup_world toy_no_invite default_args)
  /\ exists w',
       script (RT := toy_no_invite) default_args empty_world = (Some 1, w')
       /\ stdout w' = stdout empty_world ++
            [JObj [("status", JStr "failure");
                   ("error", JStr ("Failed to grant access: "
                                   +:+ str_of_Z 403 +:+ nl +:+ "forbidden"))]].
Proof.
  assert (H1 : reaches_uploads (RT := toy_no_invite) default_args empty_world
                 toy_headers (JStr "id-public")
                 (setup_world toy_no_invite default_args)).
  { exists (snd (resolve_folders (RT := toy_no_invite) default_args empty_world)).
    split; vm_compute; reflexivity. }
  assert (H2 : upload_each (RT := toy_no_invite) toy_headers (JStr "id-public")
                 (length (files_to_upload default_args)) (files_to_upload default_args)
                 [] (setup_world toy_no_invite default_args)
               = (Ret ["test_upload.txt"], uploaded_world toy_no_invite default_args))
    by (vm_compute; reflexivity).
  split; [exact H1|].
  destruct (invite_rejected_reported (RT := toy_no_invite) _ _ _ _ _ _ _
              (mkResponse 403 "forbidden" None) H1 H2)
    as (w' & Hrun & Hout & _); try (vm_compute; reflexivity).
  exists w'. split; [exact Hrun|exact Hout].
Defined.

Lemma falsy_web_url_degrades_witness :
  invite_answer (RT := toy_empty_url) toy_headers (JStr "id-public")
    ["a@b"] "public" empty_world
    (JArr (JObj [("link", JObj [("webUrl", JStr "")])] :: []))
  /\ fst (grant_folder_access (RT := toy_empty_url) toy_headers (JStr "id-public")
            ["a@b"] "public" empty_world)
     = Ret (JStr "Access granted to item id-public (no direct link returned)").
Proof.
  assert (H : invite_answer (RT := toy_empty_url) toy_headers (JStr "id-public")
                ["a@b"] "public" empty_world
                (JArr (JObj [("link", JObj [("webUrl", JStr "")])] :: []))).
  { eexists. eexists. split; [vm_compute; reflexivity|].
    split; [vm_compute; reflexivity|]. split; [vm_compute; reflexivity|].
    vm_compute; reflexivity. }
  split; [exact H|].
  rewrite (falsy_web_url_degrades (RT := toy_empty_url) _ _ _ _ _ _ _
             [("webUrl", JStr "")] (JStr "") H eq_refl eq_refl eq_refl).
  reflexivity.
Defined.

Lemma null_link_fails_witness :
  reaches_uploads (RT := toy_null_link) default_args empty_world toy_headers
    (JStr "id-public") (setup_world toy_null_link default_args)
  /\ exists w',
       script (RT := toy_null_link) default_args empty_world = (Some 1, w')
       /\ stdout w' = stdout empty_world ++ [failure_record "<library error>"].
Proof.
  assert (H1 : reaches_uploads (RT := toy_null_link) default_args empty_world
                 toy_headers (JStr "id-public")
                 (setup_world toy_null_link default_args)).
  { exists (snd (resolve_folders (RT := toy_null_link) default_args empty_world)).
    split; vm_compute; reflexivity. }
  assert (H2 : upload_each (RT := toy_null_link) toy_headers (JStr "id-public")
                 (length (files_to_upload default_args)) (files_to_upload default_args)
                 [] (setup_world toy_null_link default_args)
               = (Ret ["test_upload.txt"], uploaded_world toy_null_link default_args))
    by (vm_compute; reflexivity).
  assert (H3 : invite_answer (RT := toy_null_link) toy_headers (JStr "id-public")
                 (recipients default_args) (subfolder default_args)
                 (uploaded_world toy_null_link default_args)
                 (JArr (JObj [("link", JNull)] :: []))).
  { eexists. eexists. split; [vm_compute; reflexivity|].
    split; [vm_compute; reflexivity|]. split; [vm_compute; reflexivity|].
    vm_compute; reflexivity. }
  split; [exact H1|].
  destruct (null_link_fails (RT := toy_null_link) _ _ _ _ _ _ _ _ _ JNull
              H1 H2 H3 eq_refl) as (_ & w' & Hrun & Hout); [discriminate|].
  exists w'. split; [exact Hrun|exact Hout].
Defined.

Lemma upload_loop_truncated_diverges_witness :
  accepts_chunks (RT := toy_ok)
  /\ 0 < 1
  /\ fst (upload_loop (RT := toy_ok) 5 CHUNK_SIZE (JStr "u") 1 [] 0 empty_world)
     = Diverge.
Proof.
  assert (H1 : accepts_chunks (RT := toy_ok)).
  { intros h rq Hm. simpl. rewrite Hm. eexists. split; reflexivity. }
  assert (H2 : 0 < 1) by lia.
  split; [exact H1|]. split; [exact H2|].
  exact (upload_loop_truncated_diverges (RT := toy_ok) CHUNK_SIZE (JStr "u") 1 0
           H1 H2 5%nat empty_world).
Defined.

Lemma json_requests_keep_headers_witness :
  "Authorization" <> "Content-Type"
  /\ dict_lookup "Authorization"
       (headers (create_request (RT := toy_ok) toy_headers (JStr "root") "GlycoShield"))
     = Some "Bearer tok"
  /\ dict_lookup "Authorization"
       (headers (invite_request (RT := toy_ok) toy_headers (JStr "id-public")
                   ["a@b"] "public"))
     = Some "Bearer tok".
Proof.
  assert (H : "Authorization" <> "Content-Type") by discriminate.
  split; [exact H|].
  destruct (json_requests_keep_headers (RT := toy_ok) toy_headers (JStr "root")
              "GlycoShield" ["a@b"] "public" "Authorization" H) as (_ & _ & Hc & _).
  destruct (json_requests_keep_headers (RT := toy_ok) toy_headers (JStr "id-public")
              "GlycoShield" ["a@b"] "public" "Authorization" H) as (_ & _ & _ & Hi).
  split; [exact Hc|exact Hi].
Defined.
